(** * Statement-PDF transaction extraction ([amex_parse_pdf.py])

    A shallow embedding of [extract_transactions_from_pdf] and of the
    Python string and regular-expression primitives it is written with,
    followed by the properties of the line segmenter, the amount
    classifier and the aggregator.

    Text is a [string] of 8-bit characters read as the code points 0..255.
    On that range Python's [str.isspace], the regex classes [\s] and [\d]
    and case-insensitive matching of the (all-ASCII) patterns of the
    script coincide with the definitions below. *)

From Stdlib Require Import String Ascii List Bool Arith NArith Lia.
From Stdlib Require Import Sorted Permutation FunInd ZArith.
Import ListNotations.
Open Scope string_scope.

(** ** Python [str] primitives *)

Module Text.

Definition code (c : ascii) : N := N_of_ascii c.

(** [str.isspace] on one character, also the regex class [\s]. *)
Definition isspace (c : ascii) : bool :=
  let n := code c in
  ((9 <=? n) && (n <=? 13) || (28 <=? n) && (n <=? 32)
   || (n =? 133) || (n =? 160))%N.

(** The regex class [\d]. *)
Definition isdigit (c : ascii) : bool :=
  let n := code c in ((48 <=? n) && (n <=? 57))%N.

(** Line boundaries of [str.splitlines]. *)
Definition islinebreak (c : ascii) : bool :=
  let n := code c in
  ((10 <=? n) && (n <=? 13) || (28 <=? n) && (n <=? 30) || (n =? 133))%N.

Definition CR : ascii := ascii_of_N 13.
Definition LF : ascii := ascii_of_N 10.

Fixpoint lstrip (s : string) : string :=
  match s with
  | String c s' => if isspace c then lstrip s' else s
  | EmptyString => EmptyString
  end.

Fixpoint rstrip (s : string) : string :=
  match s with
  | String c s' =>
      match rstrip s' with
      | EmptyString => if isspace c then EmptyString else String c EmptyString
      | r => String c r
      end
  | EmptyString => EmptyString
  end.

(** [s.strip()] *)
Definition strip (s : string) : string := lstrip (rstrip s).

(** [sub in s] *)
Fixpoint contains (sub s : string) : bool :=
  if prefix sub s then true
  else match s with
       | String _ s' => contains sub s'
       | EmptyString => false
       end.

(** [s.split(sub)[0]]: the text before the first occurrence of [sub],
    all of [s] when there is none. *)
Fixpoint before (sub s : string) : string :=
  if prefix sub s then EmptyString
  else match s with
       | String c s' => String c (before sub s')
       | EmptyString => EmptyString
       end.

(** [s.splitlines()]: [\r\n] is one boundary, and a boundary at the very
    end opens no further line. *)
Fixpoint splitlines (s : string) : list string :=
  match s with
  | EmptyString => []
  | String c s' =>
      if islinebreak c then
        match s' with
        | String c' s'' =>
            if (c =? CR)%char && (c' =? LF)%char
            then EmptyString :: splitlines s''
            else EmptyString :: splitlines s'
        | EmptyString => [EmptyString]
        end
      else
        match splitlines s' with
        | l :: ls => String c l :: ls
        | [] => [String c EmptyString]
        end
  end.

(** [s.split()]: the maximal runs of non-whitespace characters. *)
Fixpoint split (s : string) : list string :=
  match s with
  | EmptyString => []
  | String c s' =>
      if isspace c then split s'
      else match s' with
           | EmptyString => [String c EmptyString]
           | String c' _ =>
               if isspace c' then String c EmptyString :: split s'
               else match split s' with
                    | w :: ws => String c w :: ws
                    | [] => [String c EmptyString]
                    end
           end
  end.

(** [sep.join(parts)] *)
Definition join (sep : string) (parts : list string) : string :=
  String.concat sep parts.

(** [s.endswith(suffix)] *)
Fixpoint endswith (suffix s : string) : bool :=
  if (s =? suffix)%string then true
  else match s with
       | String _ s' => endswith suffix s'
       | EmptyString => false
       end.

(** Case folding of the letters A..Z, as [re.IGNORECASE] applies it to the
    script's patterns. *)
Definition lower (c : ascii) : ascii :=
  let n := code c in
  if ((65 <=? n) && (n <=? 90))%N then ascii_of_N (n + 32) else c.

Fixpoint prefix_ci (p s : string) : bool :=
  match p with
  | EmptyString => true
  | String a p' =>
      match s with
      | String b s' => (lower a =? lower b)%char && prefix_ci p' s'
      | EmptyString => false
      end
  end.

(** [re.search(literal, s, re.IGNORECASE)] for a literal pattern. *)
Fixpoint contains_ci (p s : string) : bool :=
  if prefix_ci p s then true
  else match s with
       | String _ s' => contains_ci p s'
       | EmptyString => false
       end.

End Text.

(** ** The regular expressions of the script *)

Module Regex.
Import Text.

(** Longest prefix of [s] whose characters satisfy [p]: a greedy [[...]*]. *)
Fixpoint span (p : ascii -> bool) (s : string) : string * string :=
  match s with
  | String c s' =>
      if p c then let (a, b) := span p s' in (String c a, b)
      else (EmptyString, s)
  | EmptyString => (EmptyString, EmptyString)
  end.

Definition amount_body_char (c : ascii) : bool :=
  isdigit c || (c =? ",")%char.

(** The optional closing parenthesis [\)?], taken when it is there. *)
Definition close_paren (s : string) : string :=
  match s with
  | String c _ => if (c =? ")")%char then ")" else EmptyString
  | EmptyString => EmptyString
  end.

(** [\$[\d,]+\.\d{2}\)?] anchored at the head of [s]; the matched text.
    The greedy run [[\d,]+] is followed by [\.], which is outside the
    class, so no shorter run can succeed where the longest fails. *)
Definition amount_tail (s : string) : option string :=
  match s with
  | String dollar s1 =>
      if (dollar =? "$")%char then
        match span amount_body_char s1 with
        | (String c ds, String dot (String d1 (String d2 s2))) =>
            if (dot =? ".")%char && isdigit d1 && isdigit d2 then
              Some ("$" ++ String c ds
                        ++ String "." (String d1 (String d2 (close_paren s2))))
            else None
        | _ => None
        end
      else None
  | EmptyString => None
  end.

(** [amount_pattern = r'\(?\$[\d,]+\.\d{2}\)?'] anchored at the head of [s].
    When [s] opens with a parenthesis and the rest fails, the engine
    retries with [\(?] empty and needs [\$] where the parenthesis is:
    no match. *)
Definition match_amount (s : string) : option string :=
  match s with
  | String c s' =>
      if (c =? "(")%char then
        match amount_tail s' with
        | Some t => Some (String "(" t)
        | None => None
        end
      else amount_tail s
  | EmptyString => None
  end.

(** The pieces a left-to-right scan for [amount_pattern] cuts a string
    into: a matched token, or one character outside every match. *)
Inductive piece : Type :=
| Lit (c : ascii)
| Tok (t : string).

(** [re.finditer(amount_pattern, s)]: the pattern is tried at every
    position that is not inside an earlier match; [skip] counts the
    characters of the current match still to be passed over. *)
Fixpoint scan (skip : nat) (s : string) : list piece :=
  match s with
  | EmptyString => []
  | String c s' =>
      match skip with
      | S k => scan k s'
      | O =>
          match match_amount s with
          | Some t => Tok t :: scan (String.length t - 1) s'
          | None => Lit c :: scan 0 s'
          end
      end
  end.

Fixpoint tokens (ps : list piece) : list string :=
  match ps with
  | [] => []
  | Tok t :: ps' => t :: tokens ps'
  | Lit _ :: ps' => tokens ps'
  end.

Fixpoint literals (ps : list piece) : string :=
  match ps with
  | [] => EmptyString
  | Tok _ :: ps' => literals ps'
  | Lit c :: ps' => String c (literals ps')
  end.

Fixpoint unscan (ps : list piece) : string :=
  match ps with
  | [] => EmptyString
  | Tok t :: ps' => t ++ unscan ps'
  | Lit c :: ps' => String c (unscan ps')
  end.

(** [re.findall(amount_pattern, s)] *)
Definition findall_amounts (s : string) : list string := tokens (scan 0 s).

(** [re.sub(amount_pattern, '', s)] *)
Definition sub_amounts (s : string) : string := literals (scan 0 s).

Fixpoint upto_newline (s : string) : string :=
  match s with
  | String c s' => if (c =? LF)%char then EmptyString else String c (upto_newline s')
  | EmptyString => EmptyString
  end.

(** [re.match] of the date pattern [^\d{2}/\d{2}/\d{4}] (group 1)
    followed by [\s*] and a greedy run of any characters but newline
    (group 2): [\s*] takes all the whitespace after the date and group 2
    runs to the first newline. *)
Definition date_match (line : string) : option (string * string) :=
  match line with
  | String m1 (String m2 (String "/" (String d1 (String d2 (String "/"
      (String y1 (String y2 (String y3 (String y4 rest))))))))) =>
      if isdigit m1 && isdigit m2 && isdigit d1 && isdigit d2
         && isdigit y1 && isdigit y2 && isdigit y3 && isdigit y4
      then Some (String m1 (String m2 (String "/" (String d1 (String d2
                   (String "/" (String y1 (String y2 (String y3
                   (String y4 EmptyString))))))))),
                 upto_newline (lstrip rest))
      else None
  | _ => None
  end.

Definition exclude_patterns : list string :=
  [ "Beginning Balance"; "Ending Balance"; "Important Notice";
    "Member FDIC"; "Direct inquiries"; "Accounts offered by" ].

(** [exclude_regex.search(s)]: the alternation of the literals, compiled
    with [re.IGNORECASE]. *)
Definition exclude_search (s : string) : bool :=
  existsb (fun p => contains_ci p s) exclude_patterns.

End Regex.

(** ** [extract_transactions_from_pdf] *)

Module Amex.
Import Text Regex.

(** The dict [current_transaction]. *)
Record PendingTransaction : Type := mkPending {
  date : option string;
  description : list string;
  credits : option string;
  debits : option string;
  balance : option string
}.

(** The dict literal that opens a transaction: every slot [None]. *)
Definition fresh (d : option string) : PendingTransaction :=
  mkPending d [] None None None.

Definition set_description (v : list string) (p : PendingTransaction) :=
  mkPending (date p) v (credits p) (debits p) (balance p).
Definition set_credits (v : string) (p : PendingTransaction) :=
  mkPending (date p) (description p) (Some v) (debits p) (balance p).
Definition set_debits (v : string) (p : PendingTransaction) :=
  mkPending (date p) (description p) (credits p) (Some v) (balance p).
Definition set_balance (v : string) (p : PendingTransaction) :=
  mkPending (date p) (description p) (credits p) (debits p) (Some v).

(** [current_transaction['description'].append(part)] *)
Definition append_description (part : string) (p : PendingTransaction) :=
  set_description (description p ++ [part]) p.

(** One element of [transaction_data], with the columns the DataFrame
    gives it. *)
Record Row : Type := mkRow {
  Date : option string;
  Description : string;
  Credits : option string;
  Debits : option string;
  Balance : option string
}.

(** A row of the final table: the amount columns after [fillna]. *)
Record Transaction : Type := mkTransaction {
  t_date : option string;
  t_description : string;
  t_credits : string;
  t_debits : string;
  t_balance : string
}.

(** Truth value of a string. *)
Definition nonblank (s : string) : bool :=
  match s with
  | EmptyString => false
  | String _ _ => true
  end.

(** Truth value of a slot that holds [None] or a string. *)
Definition truthy (o : option string) : bool :=
  match o with
  | Some s => nonblank s
  | None => false
  end.

Definition nonempty {A : Type} (l : list A) : bool :=
  match l with
  | [] => false
  | _ :: _ => true
  end.

(** Body of [for amount in reversed(amounts)]. *)
Definition assign (p : PendingTransaction) (amount : string) : PendingTransaction :=
  match balance p with
  | None => set_balance amount p
  | Some _ =>
      if contains "(" amount then set_debits amount p
      else set_credits amount p
  end.

(** The amount classifier: the loop over [reversed(amounts)]. *)
Definition classify (amounts : list string) (p : PendingTransaction) : PendingTransaction :=
  fold_left assign (rev amounts) p.

Definition headers : list string :=
  [ "Date"; "Description"; "Credits"; "Debits"; "Balance" ].

(** [any(header in line for header in [...])] *)
Definition is_header (line : string) : bool :=
  existsb (fun header => contains header line) headers.

Definition marker : string := "Important Notice".

(** [' '.join(current_transaction['description']).strip()] *)
Definition assemble (p : PendingTransaction) : string :=
  strip (join " " (description p)).

Definition row_of (p : PendingTransaction) : Row :=
  mkRow (date p) (assemble p) (credits p) (debits p) (balance p).

(** The condition guarding both emissions. *)
Definition emit_guard (p : PendingTransaction) : bool :=
  truthy (date p)
  && (nonempty (description p) || truthy (credits p) || truthy (debits p)).

(** Save the previous transaction when a date-prefixed line is met. *)
Definition save_previous (transaction_data : list Row) (p : PendingTransaction) : list Row :=
  if emit_guard p then transaction_data ++ [row_of p] else transaction_data.

(** Add the last transaction of the page. *)
Definition save_last (transaction_data : list Row) (p : PendingTransaction) : list Row :=
  if emit_guard p then
    if negb (exclude_search (assemble p)) then transaction_data ++ [row_of p]
    else transaction_data
  else transaction_data.

(** [if part: current_transaction['description'].append(part)] *)
Definition append_nonblank (part : string) (p : PendingTransaction) : PendingTransaction :=
  if nonblank part then append_description part p else p.

(** [if "Important Notice" in s: s = s.split("Important Notice")[0].strip()] *)
Definition cut_at_marker (s : string) : string :=
  if contains marker s then strip (before marker s) else s.

(** Start a transaction from the two groups of the date match. *)
Definition start_transaction (d g2 : string) : PendingTransaction :=
  let p := fresh (Some d) in
  let desc_part := strip g2 in
  if nonblank desc_part then append_nonblank (cut_at_marker desc_part) p
  else p.

(** The line after a date-prefixed line, when it carries [amounts]: its
    text without the amounts joins the description, then the amounts are
    classified. *)
Definition consume_next (next_line : string) (amounts : list string)
    (p : PendingTransaction) : PendingTransaction :=
  let desc_text := strip (sub_amounts next_line) in
  classify amounts (append_nonblank desc_text p).

(** A line with no leading date. *)
Definition continuation (line : string) (p : PendingTransaction) : PendingTransaction :=
  match findall_amounts line with
  | [] => append_description line p
  | amounts =>
      let desc_text := cut_at_marker (strip (sub_amounts line)) in
      classify amounts (append_nonblank desc_text p)
  end.

(** The [while i < len(lines)] loop. The state is [transaction_data]
    and [current_transaction]; the cursor [i] is the list of lines still
    ahead. *)
Fixpoint segment (lines : list string) (st : list Row * PendingTransaction)
    : list Row * PendingTransaction :=
  match lines with
  | [] => st
  | raw :: rest =>
      let line := strip raw in
      if is_header line then segment rest st
      else
        match date_match line with
        | Some (d, g2) =>
            let transaction_data := save_previous (fst st) (snd st) in
            let cur := start_transaction d g2 in
            match rest with
            | [] => (transaction_data, cur)
            | raw' :: rest' =>
                let next_line := strip raw' in
                match findall_amounts next_line with
                | [] => segment rest (transaction_data, cur)
                | amounts =>
                    segment rest' (transaction_data, consume_next next_line amounts cur)
                end
            end
        | None => segment rest (fst st, continuation line (snd st))
        end
  end.

(** Truncation of the page text at the legal notice. *)
Definition truncate (content : string) : string :=
  if contains marker content then before marker content else content.

(** The page noise filter: stripped non-empty lines that match no
    exclusion pattern. *)
Definition page_lines (content : string) : list string :=
  let lines :=
    map strip (filter (fun line => nonblank (strip line))
                      (splitlines (truncate content))) in
  filter (fun line => negb (exclude_search line)) lines.

(** Body of [for page in reader.pages]. *)
Definition process_page (transaction_data : list Row) (content : string) : list Row :=
  let st := segment (page_lines content) (transaction_data, fresh None) in
  save_last (fst st) (snd st).

(** A file of the folder: its name and the text of its pages in order. *)
Definition file : Type := (string * list string)%type.

Definition process_file (transaction_data : list Row) (f : file) : list Row :=
  if endswith ".pdf" (fst f) then fold_left process_page (snd f) transaction_data
  else transaction_data.

(** [transaction_data] after the loops over files and pages. *)
Definition collect (files : list file) : list Row :=
  fold_left process_file files [].

(** The row filter on the [Description] column. *)
Definition drop_excluded (rows : list Row) : list Row :=
  filter (fun r => negb (exclude_search (Description r))) rows.

(** The two [apply] steps on the [Description] column. *)
Definition clean_description (x : string) : string :=
  strip (sub_amounts (join " " (split x))).

Definition fillna (o : option string) : string :=
  match o with
  | Some s => s
  | None => EmptyString
  end.

Definition finalize (r : Row) : Transaction :=
  mkTransaction (Date r) (clean_description (Description r))
                (fillna (Credits r)) (fillna (Debits r)) (fillna (Balance r)).

(** Order of the [Date] column under [sort_values]: strings by code
    point, missing values last. *)
Definition date_leb (a b : option string) : bool :=
  match a, b with
  | Some x, Some y => (x <=? y)%string
  | _, None => true
  | None, Some _ => false
  end.

Fixpoint insert_by_date (t : Transaction) (l : list Transaction) : list Transaction :=
  match l with
  | [] => [t]
  | u :: l' =>
      if date_leb (t_date t) (t_date u) then t :: l
      else u :: insert_by_date t l'
  end.

(** [df.sort_values("Date")]. pandas leaves the order of rows with equal
    dates to its sorting routine; the model takes an insertion sort. *)
Fixpoint sort_values (l : list Transaction) : list Transaction :=
  match l with
  | [] => []
  | t :: l' => insert_by_date t (sort_values l')
  end.

(** The table written to the CSV file. *)
Definition extract_transactions_from_pdf (files : list file) : list Transaction :=
  sort_values (map finalize (drop_excluded (collect files))).

End Amex.

(** ** The loaders: file names and fiscal periods

    The pure helpers of [pyscript_bank_transactions.py],
    [py_script_unified.py] and [py_script_stocks.py]. *)

Module Str.
Import Text.

(** [s.split(sep)] for a one-character separator: never an empty list. *)
Fixpoint split_on (sep : ascii) (s : string) : list string :=
  match s with
  | EmptyString => [EmptyString]
  | String c s' =>
      if (c =? sep)%char then EmptyString :: split_on sep s'
      else match split_on sep s' with
           | w :: ws => String c w :: ws
           | [] => [String c EmptyString]
           end
  end.

(** [s.replace(old, '')] for a non-empty [old]: the occurrences are taken
    from the left and do not overlap; [skip] counts the characters of the
    current occurrence still to be dropped. *)
Fixpoint remove_all (old : string) (skip : nat) (s : string) : string :=
  match s with
  | EmptyString => EmptyString
  | String c s' =>
      match skip with
      | S k => remove_all old k s'
      | O =>
          if prefix old s then remove_all old (String.length old - 1) s'
          else String c (remove_all old 0 s')
      end
  end.

(** [str.lower] on one character of the range 0..255: the letters A..Z and
    the accented capitals 192..222 but the multiplication sign 215. *)
Definition lower_char (c : ascii) : ascii :=
  let n := code c in
  if ((65 <=? n) && (n <=? 90) || (192 <=? n) && (n <=? 222) && negb (n =? 215))%N
  then ascii_of_N (n + 32) else c.

Fixpoint lower (s : string) : string :=
  match s with
  | EmptyString => EmptyString
  | String c s' => String (lower_char c) (lower s')
  end.

(** What a helper returns, or the [ValueError] it raises. *)
Inductive result (A : Type) : Type :=
| Ok (value : A)
| ValueError (message : string).

Arguments Ok {A} value.
Arguments ValueError {A} message.

End Str.

Module Bank.
Import Str.

(** [parse_filename] of [pyscript_bank_transactions.py]: the unpacking of
    the split raises [ValueError] unless there are exactly two parts. *)
Definition parse_filename (filename : string) : result (string * string) :=
  match split_on "_" filename with
  | [bank; account] => Ok (bank, remove_all ".csv" 0 account)
  | _ => ValueError ("Invalid filename format: " ++ filename
                     ++ ". Expected: bankname_accountname.csv")
  end.

End Bank.

Module Unified.
Import Text Str.

(** [file_type.lower() not in ('bank', 'credit')] negated. *)
Definition known_type (t : string) : bool :=
  (t =? "bank")%string || (t =? "credit")%string.

(** [parse_filename] of [py_script_unified.py]: every exception raised in
    the body is raised again as a [ValueError] quoting its message. *)
Definition parse_filename (filename : string) : result (string * string * string) :=
  let wrap e := ValueError ("Invalid filename format: " ++ filename
                            ++ ". Error: " ++ e) in
  match split_on "_" (remove_all ".csv" 0 filename) with
  | [file_type; institution; account] =>
      if known_type (lower file_type)
      then Ok (institution, account, lower file_type)
      else wrap "File type must be 'bank' or 'credit'"
  | _ => wrap "Filename must be in format: type_institution_account.csv"
  end.

(** The part of a [pd.Timestamp] the period helpers read. *)
Record Timestamp : Type := mkTimestamp { year : Z; month : Z }.

(** [date.strftime('%B')]: the full month name, in the C locale the
    scripts run in; months are 1..12. *)
Definition month_name (m : Z) : string :=
  match m with
  | 1 => "January" | 2 => "February" | 3 => "March" | 4 => "April"
  | 5 => "May" | 6 => "June" | 7 => "July" | 8 => "August"
  | 9 => "September" | 10 => "October" | 11 => "November" | 12 => "December"
  | _ => EmptyString
  end%Z.

(** The dict of the period helpers. *)
Record Periods : Type := mkPeriods {
  fiscal_year : Z;
  fiscal_quarter : Z;
  month_label : string
}.

(** [determine_fiscal_periods] of [py_script_unified.py]: calendar year
    and calendar quarter. *)
Definition determine_fiscal_periods (date : Timestamp) : Periods :=
  mkPeriods (year date) ((month date - 1) / 3 + 1)%Z (month_name (month date)).

End Unified.

Module Stocks.
Import Unified.

(** [determine_fiscal_periods] of [py_script_stocks.py]: a fiscal year
    that starts in July. *)
Definition determine_fiscal_periods (date : Timestamp) : Periods :=
  let fiscal_year := if (month date <? 7)%Z then year date else (year date + 1)%Z in
  let fiscal_quarter :=
    if (month date <? 7)%Z then ((month date + 6) / 3)%Z
    else ((month date - 6) / 3 + 1)%Z in
  mkPeriods fiscal_year fiscal_quarter (month_name (month date)).

End Stocks.

Import Text Regex Amex.

(** A page text from its lines, for the examples. *)
Definition NL : string := String LF EmptyString.
Definition unlines (ls : list string) : string := join NL ls.

(** ** Vocabulary of the statements *)

(** The test the classifier makes on a token once the balance is set. *)
Definition is_debit (t : string) : bool := contains "(" t.

Definition is_credit (t : string) : bool := negb (contains "(" t).

(** Some character of [s] is not whitespace. *)
Fixpoint has_ink (s : string) : bool :=
  match s with
  | EmptyString => false
  | String c s' => negb (isspace c) || has_ink s'
  end.

(** A date, and a description or a credit or a debit. *)
Definition well_formed (r : Row) : bool :=
  truthy (Date r)
  && (nonblank (Description r) || truthy (Credits r) || truthy (Debits r)).

(** The emission invariant of the data model. *)
Definition emission_invariant (r : Row) : bool :=
  well_formed r && negb (exclude_search (Description r)).

(** Every fragment of the description shows a character. *)
Definition inked (p : PendingTransaction) : Prop :=
  Forall (fun part => has_ink part = true) (description p).

(** A string that is empty whenever it shows no character. *)
Definition tidy (s : string) : Prop := nonblank s = true -> has_ink s = true.

(** The rows the end of a page adds: at most one, and checked against
    the exclusion patterns. *)
Definition last_rows (p : PendingTransaction) : list Row :=
  if emit_guard p && negb (exclude_search (assemble p)) then [row_of p] else [].

(** The order of two rows of the table. *)
Definition date_le (a b : Transaction) : Prop :=
  date_leb (t_date a) (t_date b) = true.

(** The three amount slots of the open transaction. *)
Definition slots (p : PendingTransaction) : option string * option string * option string :=
  (credits p, debits p, balance p).

(** Lines the date pattern matches, and their number on a page. *)
Definition is_date_line (raw : string) : bool :=
  match date_match (strip raw) with
  | Some _ => true
  | None => false
  end.

Definition date_lines (lines : list string) : nat :=
  List.length (filter is_date_line lines).

(** The rows one file contributes: those of its pages, when its name ends
    in [.pdf]. *)
Definition file_rows (f : file) : list Row :=
  if endswith ".pdf" (fst f) then flat_map (process_page []) (snd f) else [].

(** Lines that open a transaction: date-prefixed and not skipped as a
    header line. *)
Definition opening_line (raw : string) : bool :=
  negb (is_header (strip raw)) && is_date_line raw.

Definition opening_lines (lines : list string) : nat :=
  List.length (filter opening_line lines).

(** One when a transaction is open, zero otherwise. *)
Definition is_open (p : PendingTransaction) : nat :=
  if truthy (date p) then 1 else 0.

(** A string that is a date token and nothing more. *)
Definition is_date (d : string) : bool :=
  match date_match d with
  | Some (d', g2) => (d' =? d)%string && (g2 =? "")%string
  | None => false
  end.

(** A string that is one amount token from end to end. *)
Definition is_amount (t : string) : bool :=
  match match_amount t with
  | Some u => (u =? t)%string
  | None => false
  end.

(** What a credits, debits or balance slot may hold. *)
Definition credit_ok (o : option string) : bool :=
  match o with
  | Some t => is_amount t && negb (contains "(" t)
  | None => true
  end.

Definition debit_ok (o : option string) : bool :=
  match o with
  | Some t => is_amount t && contains "(" t
  | None => true
  end.

Definition balance_ok (o : option string) : bool :=
  match o with
  | Some t => is_amount t
  | None => true
  end.

Definition slots_ok (p : PendingTransaction) : Prop :=
  credit_ok (credits p) = true /\ debit_ok (debits p) = true
  /\ balance_ok (balance p) = true.

Definition date_ok (o : option string) : bool :=
  match o with
  | Some d => is_date d
  | None => true
  end.

(** Every character of [s] satisfies [P]. *)
Fixpoint all_chars (P : ascii -> bool) (s : string) : bool :=
  match s with
  | EmptyString => true
  | String c s' => P c && all_chars P s'
  end.

Definition not_linebreak (c : ascii) : bool := negb (islinebreak c).

Definition not_space (c : ascii) : bool := negb (isspace c).

(** A character that is no whitespace other than the plain space. *)
Definition plain (c : ascii) : bool := negb (isspace c) || (c =? " ")%char.

(** [x] occurs in [y] as a run of consecutive characters. *)
Definition part_of (x y : string) : Prop := exists a b, y = a ++ x ++ b.

(** Number of occurrences of a character. *)
Fixpoint count_char (c : ascii) (s : string) : nat :=
  match s with
  | EmptyString => 0
  | String x s' => (if (x =? c)%char then 1 else 0) + count_char c s'
  end.

(** A date with a month of the calendar. *)
Definition valid_month (date : Unified.Timestamp) : Prop :=
  (1 <= Unified.month date <= 12)%Z.

(** No credit or debit without a balance. *)
Definition settled (c d b : option string) : bool :=
  match b, c, d with
  | Some _, _, _ => true
  | None, None, None => true
  | None, _, _ => false
  end.

(** A text with its capitals A..Z put in lower case. *)
Fixpoint fold_case (s : string) : string :=
  match s with
  | EmptyString => EmptyString
  | String c s' => String (Text.lower c) (fold_case s')
  end.

(** Case analysis following the branches of the [while] loop. *)
Functional Scheme segment_ind := Induction for segment Sort Prop.

(** * Properties *)

(** ** The amount classifier *)

Lemma classify_nil p : classify [] p = p.
Proof. reflexivity. Qed.

Lemma classify_cons a l p : classify (a :: l) p = assign (classify l p) a.
Proof. unfold classify; simpl; now rewrite fold_left_app. Qed.

Lemma assign_date p a : date (assign p a) = date p.
Proof. unfold assign; destruct (balance p); [destruct (contains _ a)|]; reflexivity. Qed.

Lemma assign_description p a : description (assign p a) = description p.
Proof. unfold assign; destruct (balance p); [destruct (contains _ a)|]; reflexivity. Qed.

Lemma assign_balance_kept p a b :
  balance p = Some b -> balance (assign p a) = Some b.
Proof.
  intros Hb; unfold assign; rewrite Hb.
  destruct (contains _ a); exact Hb.
Qed.

Lemma classify_date l p : date (classify l p) = date p.
Proof.
  induction l as [|a l IH]; [reflexivity|].
  now rewrite classify_cons, assign_date.
Qed.

Lemma classify_description l p : description (classify l p) = description p.
Proof.
  induction l as [|a l IH]; [reflexivity|].
  now rewrite classify_cons, assign_description.
Qed.

Lemma classify_balance_kept l p b :
  balance p = Some b -> balance (classify l p) = Some b.
Proof.
  intros Hb; induction l as [|a l IH]; [exact Hb|].
  rewrite classify_cons; now apply assign_balance_kept.
Qed.

(** With the balance set, the credits slot ends with the leftmost token
    without a parenthesis, the one the reversed loop writes last. *)
Lemma classify_credits l p b :
  balance p = Some b ->
  credits (classify l p) =
    match find is_credit l with
    | Some t => Some t
    | None => credits p
    end.
Proof.
  intros Hb; induction l as [|a l IH]; [reflexivity|].
  rewrite classify_cons; simpl; unfold is_credit at 1, assign.
  rewrite (classify_balance_kept l p b Hb).
  destruct (contains "(" a); simpl; [exact IH | reflexivity].
Qed.

Lemma classify_debits l p b :
  balance p = Some b ->
  debits (classify l p) =
    match find is_debit l with
    | Some t => Some t
    | None => debits p
    end.
Proof.
  intros Hb; induction l as [|a l IH]; [reflexivity|].
  rewrite classify_cons; simpl; unfold is_debit at 1, assign.
  rewrite (classify_balance_kept l p b Hb).
  destruct (contains "(" a); simpl; [reflexivity | exact IH].
Qed.

(** ** Continuation lines *)

Lemma append_nonblank_date part p : date (append_nonblank part p) = date p.
Proof. unfold append_nonblank; now destruct (nonblank part). Qed.

Lemma append_nonblank_credits part p : credits (append_nonblank part p) = credits p.
Proof. unfold append_nonblank; now destruct (nonblank part). Qed.

Lemma append_nonblank_debits part p : debits (append_nonblank part p) = debits p.
Proof. unfold append_nonblank; now destruct (nonblank part). Qed.

Lemma append_nonblank_balance part p : balance (append_nonblank part p) = balance p.
Proof. unfold append_nonblank; now destruct (nonblank part). Qed.

Lemma continuation_date line p : date (continuation line p) = date p.
Proof.
  unfold continuation.
  destruct (findall_amounts line); [reflexivity|].
  now rewrite classify_date, append_nonblank_date.
Qed.

Lemma continuation_balance_kept line p b :
  balance p = Some b -> balance (continuation line p) = Some b.
Proof.
  intros Hb; unfold continuation.
  destruct (findall_amounts line); [exact Hb|].
  apply classify_balance_kept; now rewrite append_nonblank_balance.
Qed.

Lemma continuation_credits line p b :
  balance p = Some b ->
  credits (continuation line p) =
    match find is_credit (findall_amounts line) with
    | Some t => Some t
    | None => credits p
    end.
Proof.
  intros Hb; unfold continuation.
  destruct (findall_amounts line) as [|a l] eqn:E; [reflexivity|].
  rewrite (classify_credits _ _ b), append_nonblank_credits; [reflexivity|].
  now rewrite append_nonblank_balance.
Qed.

Lemma continuation_debits line p b :
  balance p = Some b ->
  debits (continuation line p) =
    match find is_debit (findall_amounts line) with
    | Some t => Some t
    | None => debits p
    end.
Proof.
  intros Hb; unfold continuation.
  destruct (findall_amounts line) as [|a l] eqn:E; [reflexivity|].
  rewrite (classify_debits _ _ b), append_nonblank_debits; [reflexivity|].
  now rewrite append_nonblank_balance.
Qed.

(** C2. One line carrying the tokens $10.00, ($5.00), $100.00 in that
    order, met with no slot assigned: the tokens are taken from the right,
    so the balance is $100.00, the debit ($5.00) and the credit $10.00. *)
Theorem reverse_classification :
  findall_amounts "$10.00 ($5.00) $100.00" = ["$10.00"; "($5.00)"; "$100.00"]
  /\ (forall a b c p, classify [a; b; c] p = assign (assign (assign p c) b) a)
  /\ (forall d parts,
        classify ["$10.00"; "($5.00)"; "$100.00"] (mkPending d parts None None None)
        = mkPending d parts (Some "$10.00") (Some "($5.00)") (Some "$100.00"))
  /\ continuation "$10.00 ($5.00) $100.00" (fresh (Some "01/02/2023"))
     = mkPending (Some "01/02/2023") [] (Some "$10.00") (Some "($5.00)") (Some "$100.00").
Proof.
  split; [reflexivity|].
  split; [reflexivity|].
  split; [reflexivity|].
  vm_compute; reflexivity.
Qed.

(** C4. Two lines of one open transaction, both met with the balance
    already set: whatever the first line wrote, the credits slot ends with
    the credit token of the second line, and the debits slot with its debit
    token (the leftmost such token, written last by the reversed loop). *)
Theorem last_write_wins (line1 line2 : string) (p : PendingTransaction) (b : string) :
  balance p = Some b ->
  let q := continuation line2 (continuation line1 p) in
  (forall t, find is_credit (findall_amounts line2) = Some t -> credits q = Some t)
  /\ (forall t, find is_debit (findall_amounts line2) = Some t -> debits q = Some t).
Proof.
  intros Hb q.
  pose proof (continuation_balance_kept line1 p b Hb) as Hb1.
  split; intros t Ht; unfold q.
  - rewrite (continuation_credits line2 _ b Hb1), Ht; reflexivity.
  - rewrite (continuation_debits line2 _ b Hb1), Ht; reflexivity.
Qed.

Lemma last_write_wins_witness :
  let p := mkPending (Some "01/02/2023") ["RENT"] None None (Some "$900.00") in
  credits (continuation "$5.00 ($6.00)" p) = Some "$5.00"
  /\ debits (continuation "$5.00 ($6.00)" p) = Some "($6.00)"
  /\ credits (continuation "($8.00) $7.00" (continuation "$5.00 ($6.00)" p)) = Some "$7.00"
  /\ debits (continuation "($8.00) $7.00" (continuation "$5.00 ($6.00)" p)) = Some "($8.00)".
Proof.
  intros p.
  split; [reflexivity|]. split; [reflexivity|].
  destruct (last_write_wins "$5.00 ($6.00)" "($8.00) $7.00" p "$900.00" eq_refl)
    as [Hc Hd].
  split; [apply Hc | apply Hd]; reflexivity.
Defined.

(** ** Whitespace and stripping *)

Lemma has_ink_app a b : has_ink (a ++ b) = has_ink a || has_ink b.
Proof.
  induction a as [|c a IH]; simpl; [reflexivity|].
  now rewrite IH, orb_assoc.
Qed.

Lemma lstrip_ink s : has_ink (lstrip s) = has_ink s.
Proof.
  induction s as [|c s IH]; simpl; [reflexivity|].
  destruct (isspace c) eqn:E; simpl; [exact IH | now rewrite E].
Qed.

Lemma rstrip_ink s : has_ink (rstrip s) = has_ink s.
Proof.
  induction s as [|c s IH]; simpl; [reflexivity|].
  destruct (rstrip s) as [|c' r]; simpl in *.
  - rewrite <- IH. destruct (isspace c) eqn:E; simpl; now rewrite ?E.
  - now rewrite IH.
Qed.

Lemma strip_ink s : has_ink (strip s) = has_ink s.
Proof. unfold strip; now rewrite lstrip_ink, rstrip_ink. Qed.

Lemma lstrip_nonblank s : nonblank (lstrip s) = has_ink s.
Proof.
  induction s as [|c s IH]; simpl; [reflexivity|].
  destruct (isspace c); simpl; [exact IH | reflexivity].
Qed.

(** A stripped string is empty exactly when the string is all whitespace. *)
Lemma strip_nonblank s : nonblank (strip s) = has_ink s.
Proof. unfold strip; now rewrite lstrip_nonblank, rstrip_ink. Qed.

Lemma join_ink sep part parts :
  has_ink part = true -> has_ink (join sep (part :: parts)) = true.
Proof.
  intros H; unfold join; simpl.
  destruct parts; [exact H|].
  now rewrite has_ink_app, H.
Qed.

(** ** What the segmenter pushes to [transaction_data] *)

Lemma strip_tidy s : tidy (strip s).
Proof. unfold tidy; now rewrite strip_nonblank, strip_ink. Qed.

Lemma cut_at_marker_tidy s : tidy s -> tidy (cut_at_marker s).
Proof.
  intros H; unfold cut_at_marker.
  destruct (contains marker s); [apply strip_tidy | exact H].
Qed.

Lemma fresh_inked d : inked (fresh d).
Proof. constructor. Qed.

Lemma append_description_inked part p :
  has_ink part = true -> inked p -> inked (append_description part p).
Proof.
  unfold inked; simpl; intros H Hp.
  apply Forall_app; split; [exact Hp | now constructor].
Qed.

Lemma append_nonblank_inked part p :
  tidy part -> inked p -> inked (append_nonblank part p).
Proof.
  intros Ht Hp; unfold append_nonblank.
  destruct (nonblank part) eqn:E; [|exact Hp].
  apply append_description_inked; auto.
Qed.

Lemma classify_inked l p : inked p -> inked (classify l p).
Proof. unfold inked; now rewrite classify_description. Qed.

Lemma start_transaction_inked d g2 : inked (start_transaction d g2).
Proof.
  unfold start_transaction.
  destruct (nonblank (strip g2)); [|apply fresh_inked].
  apply append_nonblank_inked; [|apply fresh_inked].
  apply cut_at_marker_tidy, strip_tidy.
Qed.

Lemma consume_next_inked next_line amounts p :
  inked p -> inked (consume_next next_line amounts p).
Proof.
  intros Hp; unfold consume_next.
  apply classify_inked, append_nonblank_inked; [apply strip_tidy | exact Hp].
Qed.

Lemma continuation_inked line p :
  has_ink line = true -> inked p -> inked (continuation line p).
Proof.
  intros Hl Hp; unfold continuation.
  destruct (findall_amounts line).
  - now apply append_description_inked.
  - apply classify_inked, append_nonblank_inked; [|exact Hp].
    apply cut_at_marker_tidy, strip_tidy.
Qed.

Lemma guard_well_formed p :
  inked p -> emit_guard p = true -> well_formed (row_of p) = true.
Proof.
  unfold emit_guard, well_formed, inked; simpl; intros Hp Hg.
  apply andb_true_iff in Hg as [Hd Hg]; rewrite Hd; simpl.
  destruct (description p) as [|part parts] eqn:E; simpl in Hg.
  - unfold assemble; rewrite E; simpl. exact Hg.
  - unfold assemble; rewrite E, strip_nonblank, join_ink; [reflexivity|].
    now inversion Hp.
Qed.

Lemma save_previous_well_formed data p :
  inked p ->
  Forall (fun r => well_formed r = true) data ->
  Forall (fun r => well_formed r = true) (save_previous data p).
Proof.
  intros Hp Hd; unfold save_previous.
  destruct (emit_guard p) eqn:E; [|exact Hd].
  apply Forall_app; split; [exact Hd|].
  constructor; [now apply guard_well_formed | constructor].
Qed.

(** The loop keeps both the rows and the open transaction in shape,
    given lines that are not blank. *)
Lemma segment_well_formed lines st :
  Forall (fun l => has_ink l = true) lines ->
  Forall (fun r => well_formed r = true) (fst st) ->
  inked (snd st) ->
  Forall (fun r => well_formed r = true) (fst (segment lines st))
  /\ inked (snd (segment lines st)).
Proof.
  functional induction (segment lines st); intros HL Hd Hp.
  - now split.
  - inversion HL; subst; auto.
  - split; simpl.
    + now apply save_previous_well_formed.
    + apply start_transaction_inked.
  - inversion HL; subst. apply IHp; auto.
    + now apply save_previous_well_formed.
    + apply start_transaction_inked.
  - inversion HL as [|? ? ? HL']; subst. inversion HL'; subst.
    apply IHp; auto.
    + now apply save_previous_well_formed.
    + apply consume_next_inked, start_transaction_inked.
  - inversion HL; subst. apply IHp; auto.
    apply continuation_inked; [|exact Hp].
    now rewrite strip_ink.
Qed.

Lemma page_lines_ink content :
  Forall (fun l => has_ink l = true) (page_lines content).
Proof.
  apply Forall_forall; intros l Hl; unfold page_lines in Hl.
  apply filter_In in Hl as [Hl _].
  apply in_map_iff in Hl as (raw & <- & Hraw).
  apply filter_In in Hraw as [_ Hraw].
  now rewrite strip_nonblank in Hraw; rewrite strip_ink.
Qed.

Lemma save_last_rows data p : save_last data p = (data ++ last_rows p)%list.
Proof.
  unfold save_last, last_rows.
  destruct (emit_guard p); simpl; [|now rewrite app_nil_r].
  destruct (exclude_search (assemble p)); simpl; [now rewrite app_nil_r | reflexivity].
Qed.

Lemma last_rows_invariant p :
  inked p -> Forall (fun r => emission_invariant r = true) (last_rows p).
Proof.
  intros Hp; unfold last_rows.
  destruct (emit_guard p) eqn:Eg; simpl; [|constructor].
  destruct (exclude_search (assemble p)) eqn:Ex; simpl; constructor; [|constructor].
  unfold emission_invariant; rewrite (guard_well_formed p Hp Eg); simpl.
  now rewrite Ex.
Qed.

Lemma invariant_well_formed r : emission_invariant r = true -> well_formed r = true.
Proof. unfold emission_invariant; intros H; now apply andb_true_iff in H. Qed.

Lemma process_page_well_formed data content :
  Forall (fun r => well_formed r = true) data ->
  Forall (fun r => well_formed r = true) (process_page data content).
Proof.
  intros Hd; unfold process_page; rewrite save_last_rows.
  destruct (segment_well_formed (page_lines content) (data, fresh None))
    as [Hrows Hp]; [apply page_lines_ink | exact Hd | apply fresh_inked |].
  apply Forall_app; split; [exact Hrows|].
  eapply Forall_impl; [|apply last_rows_invariant, Hp].
  intros r; apply invariant_well_formed.
Qed.

Lemma pages_well_formed pages data :
  Forall (fun r => well_formed r = true) data ->
  Forall (fun r => well_formed r = true) (fold_left process_page pages data).
Proof.
  revert data; induction pages as [|pg pages IH]; intros data Hd; simpl; [exact Hd|].
  apply IH, process_page_well_formed, Hd.
Qed.

Lemma files_well_formed files data :
  Forall (fun r => well_formed r = true) data ->
  Forall (fun r => well_formed r = true) (fold_left process_file files data).
Proof.
  revert data; induction files as [|f files IH]; intros data Hd; simpl; [exact Hd|].
  apply IH; unfold process_file.
  destruct (endswith ".pdf" (fst f)); [now apply pages_well_formed | exact Hd].
Qed.

Lemma collect_well_formed files :
  Forall (fun r => well_formed r = true) (collect files).
Proof. apply files_well_formed; constructor. Qed.

Lemma drop_excluded_invariant rows :
  Forall (fun r => well_formed r = true) rows ->
  Forall (fun r => emission_invariant r = true) (drop_excluded rows).
Proof.
  intros H; apply Forall_forall; intros r Hr.
  apply filter_In in Hr as [Hr Hx].
  rewrite Forall_forall in H; unfold emission_invariant.
  now rewrite (H r Hr), Hx.
Qed.

(** What does hold of the rows pushed. Every row the segmenter pushes has
    a date and a description, credit or debit; a row pushed at the end of a
    page has also been checked against the exclusion patterns; the rows
    left by the row filter of the aggregator satisfy the whole invariant on
    their assembled description. *)
Theorem emitted_rows_invariant :
  (forall content,
      Forall (fun r => well_formed r = true) (process_page [] content))
  /\ (forall content,
        let st := segment (page_lines content) ([], fresh None) in
        process_page [] content = (fst st ++ last_rows (snd st))%list
        /\ Forall (fun r => emission_invariant r = true) (last_rows (snd st)))
  /\ (forall files,
        Forall (fun r => emission_invariant r = true) (drop_excluded (collect files))).
Proof.
  split; [|split].
  - intros content; apply process_page_well_formed; constructor.
  - intros content st; split.
    + unfold process_page; apply save_last_rows.
    + apply last_rows_invariant.
      apply (segment_well_formed (page_lines content) ([], fresh None));
        [apply page_lines_ink | constructor | apply fresh_inked].
  - intros files; apply drop_excluded_invariant, collect_well_formed.
Qed.

(** C1. The save made when the next date-prefixed line is met misses the
    exclusion test that the save at the end of the page makes on the same
    assembled description under the same guard. The fragments Member and
    FDIC sit on two lines, neither line is excluded, and the row is pushed
    with the description Member FDIC, which matches an exclusion pattern:
    the rows of the page do not all satisfy the emission invariant. *)
Lemma mid_page_row_matches_exclusion :
  let content := unlines ["01/02/2023 Member"; "FDIC"; "01/03/2023 X"] in
  process_page [] content
  = [ mkRow (Some "01/02/2023") "Member FDIC" None None None;
      mkRow (Some "01/03/2023") "X" None None None ]
  /\ exclude_search "Member FDIC" = true
  /\ ~ Forall (fun r => emission_invariant r = true) (process_page [] content).
Proof.
  intros content.
  assert (Hrows : process_page [] content
                  = [ mkRow (Some "01/02/2023") "Member FDIC" None None None;
                      mkRow (Some "01/03/2023") "X" None None None ])
    by (vm_compute; reflexivity).
  split; [exact Hrows|].
  split; [vm_compute; reflexivity|].
  rewrite Hrows; intros H; apply Forall_inv in H.
  vm_compute in H; discriminate.
Qed.

(** C3. The page of three lines: 01/02/2023 COFFEE SHOP, then the amounts
    $4.50 $1,200.00, then 01/05/2023 PAYROLL DEPOSIT, gives exactly two
    transactions; the second has a date and a description and no amount,
    and is written with three empty amount fields. In general an open
    transaction with a date and a description passes the guard without any
    amount, and its row is written with empty strings for the amounts. *)
Theorem coffee_shop_scenario :
  let lines := ["01/02/2023 COFFEE SHOP"; "$4.50 $1,200.00"; "01/05/2023 PAYROLL DEPOSIT"] in
  page_lines (unlines lines) = lines
  /\ process_page [] (unlines lines)
     = [ mkRow (Some "01/02/2023") "COFFEE SHOP" (Some "$4.50") None (Some "$1,200.00");
         mkRow (Some "01/05/2023") "PAYROLL DEPOSIT" None None None ]
  /\ extract_transactions_from_pdf [("statement.pdf", [unlines lines])]
     = [ mkTransaction (Some "01/02/2023") "COFFEE SHOP" "$4.50" "" "$1,200.00";
         mkTransaction (Some "01/05/2023") "PAYROLL DEPOSIT" "" "" "" ]
  /\ (forall c d part parts,
        emit_guard (mkPending (Some (String c d)) (part :: parts) None None None) = true)
  /\ (forall d text,
        finalize (mkRow d text None None None)
        = mkTransaction d (clean_description text) "" "" "").
Proof.
  split; [vm_compute; reflexivity|].
  split; [vm_compute; reflexivity|].
  split; [vm_compute; reflexivity|].
  split; reflexivity.
Qed.

(** ** The final sort *)

Lemma string_leb_trans a b c :
  (a <=? b)%string = true -> (b <=? c)%string = true -> (a <=? c)%string = true.
Proof.
  unfold String.leb; revert b c.
  induction a as [|x a IH]; intros [|y b] [|z c]; simpl; try congruence.
  unfold Ascii.compare.
  destruct (N.compare_spec (N_of_ascii x) (N_of_ascii y)) as [Exy|Lxy|Gxy];
    destruct (N.compare_spec (N_of_ascii y) (N_of_ascii z)) as [Eyz|Lyz|Gyz];
    destruct (N.compare_spec (N_of_ascii x) (N_of_ascii z)) as [Exz|Lxz|Gxz];
    try congruence; try lia.
  apply IH.
Qed.

Lemma date_leb_trans a b c :
  date_leb a b = true -> date_leb b c = true -> date_leb a c = true.
Proof.
  destruct a, b, c; simpl; try congruence.
  apply string_leb_trans.
Qed.

Lemma date_leb_total a b : date_leb a b = true \/ date_leb b a = true.
Proof.
  destruct a, b; simpl; auto.
  apply String.leb_total.
Qed.

Lemma insert_by_date_perm t l : Permutation (insert_by_date t l) (t :: l).
Proof.
  induction l as [|u l IH]; simpl; [reflexivity|].
  destruct (date_leb (t_date t) (t_date u)); [reflexivity|].
  rewrite IH; apply perm_swap.
Qed.

Lemma sort_values_perm l : Permutation (sort_values l) l.
Proof.
  induction l as [|t l IH]; simpl; [reflexivity|].
  rewrite insert_by_date_perm; now constructor.
Qed.

Lemma insert_by_date_sorted t l :
  StronglySorted date_le l -> StronglySorted date_le (insert_by_date t l).
Proof.
  induction 1 as [|u l Hs IH Hu]; simpl.
  - repeat constructor.
  - destruct (date_leb (t_date t) (t_date u)) eqn:E.
    + constructor; [now constructor|].
      constructor; [exact E|].
      eapply Forall_impl; [|exact Hu].
      intros v Hv; unfold date_le in *; eapply date_leb_trans; eassumption.
    + constructor; [exact IH|].
      eapply Permutation_Forall; [symmetry; apply insert_by_date_perm|].
      constructor; [|exact Hu].
      destruct (date_leb_total (t_date t) (t_date u)); [congruence | assumption].
Qed.

Lemma sort_values_sorted l : StronglySorted date_le (sort_values l).
Proof.
  induction l as [|t l IH]; simpl; [constructor|].
  now apply insert_by_date_sorted.
Qed.

(** Every row of the table carries a date string. *)
Lemma output_dates_present files :
  Forall (fun t => exists d, t_date t = Some d) (extract_transactions_from_pdf files).
Proof.
  unfold extract_transactions_from_pdf.
  eapply Permutation_Forall; [symmetry; apply sort_values_perm|].
  apply Forall_forall; intros t Ht.
  apply in_map_iff in Ht as (r & <- & Hr).
  apply filter_In in Hr as [Hr _].
  pose proof (collect_well_formed files) as Hw.
  rewrite Forall_forall in Hw; specialize (Hw r Hr).
  unfold well_formed in Hw; apply andb_true_iff in Hw as [Hd _].
  simpl; destruct (Date r) as [d|]; [now exists d | discriminate].
Qed.

(** C5. The table holds the kept rows, each with a date string, in
    ascending order of that string compared character by character: a row
    never comes after a row whose date string is smaller. The order is not
    chronological: 01/05/2024 is placed before 12/31/2023. *)
Theorem output_sorted_by_date_string :
  (forall files,
      let table := extract_transactions_from_pdf files in
      StronglySorted date_le table
      /\ Forall (fun t => exists d, t_date t = Some d) table
      /\ Permutation table (map finalize (drop_excluded (collect files)))
      /\ (forall i j a b,
            i < j -> nth_error table i = Some a -> nth_error table j = Some b ->
            exists x y, t_date a = Some x /\ t_date b = Some y
                        /\ (x <=? y)%string = true))
  /\ map t_date
       (extract_transactions_from_pdf
          [("statement.pdf", ["12/31/2023 PARTY SUPPLIES"; "01/05/2024 GYM"])])
     = [Some "01/05/2024"; Some "12/31/2023"].
Proof.
  split; [|vm_compute; reflexivity].
  intros files table.
  assert (Hs : StronglySorted date_le table) by apply sort_values_sorted.
  assert (Hd : Forall (fun t => exists d, t_date t = Some d) table)
    by apply output_dates_present.
  split; [exact Hs|]. split; [exact Hd|].
  split; [apply sort_values_perm|].
  clearbody table; induction Hs as [|t l Hs IH Ht]; intros i j a b Hij Hi Hj.
  - destruct i; discriminate.
  - inversion Hd as [|? ? Hdt Hdl]; subst.
    destruct j as [|j]; [lia|]; simpl in Hj.
    destruct i as [|i]; simpl in Hi.
    + injection Hi as <-.
      apply nth_error_In in Hj.
      rewrite Forall_forall in Ht, Hdl.
      destruct Hdt as [x Hx]; destruct (Hdl b Hj) as [y Hy].
      exists x, y; repeat split; auto.
      specialize (Ht b Hj); unfold date_le in Ht.
      now rewrite Hx, Hy in Ht.
    + apply (IH Hdl i j); auto; lia.
Qed.

Lemma output_sorted_by_date_string_witness :
  let table := extract_transactions_from_pdf
                 [("statement.pdf", ["12/31/2023 PARTY SUPPLIES"; "01/05/2024 GYM"])] in
  exists a b x y,
    nth_error table 0 = Some a /\ nth_error table 1 = Some b
    /\ t_date a = Some x /\ t_date b = Some y /\ (x <=? y)%string = true.
Proof.
  intros table.
  destruct output_sorted_by_date_string as [H _].
  destruct (H [("statement.pdf", ["12/31/2023 PARTY SUPPLIES"; "01/05/2024 GYM"])])
    as (_ & _ & _ & Hij).
  destruct (Hij 0 1 (mkTransaction (Some "01/05/2024") "GYM" "" "" "")
                    (mkTransaction (Some "12/31/2023") "PARTY SUPPLIES" "" "" ""))
    as (x & y & Hx & Hy & Hxy); [lia | reflexivity | reflexivity |].
  exists (mkTransaction (Some "01/05/2024") "GYM" "" "" ""),
         (mkTransaction (Some "12/31/2023") "PARTY SUPPLIES" "" "" ""), x, y.
  repeat split; assumption.
Defined.

(** ** Truncation at the legal notice *)

Lemma append_assoc (a b c : string) : (a ++ b) ++ c = a ++ b ++ c.
Proof. induction a as [|x a IH]; simpl; [reflexivity | now rewrite IH]. Qed.

Lemma append_assoc_nil (a : string) : a ++ "" = a.
Proof. induction a as [|x a IH]; simpl; [reflexivity | now rewrite IH]. Qed.

Lemma append_length a b :
  String.length (a ++ b) = String.length a + String.length b.
Proof. induction a as [|c a IH]; simpl; [reflexivity | now rewrite IH]. Qed.

Lemma prefix_app m s : prefix m (m ++ s) = true.
Proof.
  induction m as [|a m IH]; simpl; [now destruct s|].
  destruct (ascii_dec a a); [exact IH | congruence].
Qed.

Lemma prefix_split m s : prefix m s = true -> exists r, s = m ++ r.
Proof.
  revert s; induction m as [|a m IH]; intros s H; simpl in *.
  - now exists s.
  - destruct s as [|b s]; simpl in H; [discriminate|].
    destruct (ascii_dec a b) as [->|]; [|discriminate].
    destruct (IH s H) as [r ->]; now exists r.
Qed.

Lemma prefix_app_l m x r : prefix m x = true -> prefix m (x ++ r) = true.
Proof.
  intros H; destruct (prefix_split m x H) as [q ->].
  rewrite append_assoc; apply prefix_app.
Qed.

(** Only the first [length m] characters matter to [prefix m]. *)
Lemma prefix_long m x r :
  String.length m <= String.length x -> prefix m (x ++ r) = prefix m x.
Proof.
  revert x; induction m as [|a m IH]; intros x Hl; simpl in *.
  - now destruct x; destruct r.
  - destruct x as [|b x]; simpl in *; [lia|].
    destruct (ascii_dec a b); [apply IH; lia | reflexivity].
Qed.

Lemma before_nil m : before m "" = "".
Proof. cbn [before]; now destruct (prefix m ""). Qed.

Lemma before_split m s : exists r, s = before m s ++ r.
Proof.
  induction s as [|c s [r IH]].
  - exists EmptyString; now rewrite before_nil.
  - cbn [before]; destruct (prefix m (String c s)).
    + now exists (String c s).
    + exists r; cbn [append]; now rewrite <- IH.
Qed.

Lemma prefix_before m c s :
  prefix m (String c s) = false -> prefix m (String c (before m s)) = false.
Proof.
  intros H; destruct (prefix m (String c (before m s))) eqn:E; [|reflexivity].
  destruct (before_split m s) as [r Hr].
  apply (prefix_app_l _ _ r) in E; cbn [append] in E.
  rewrite <- Hr in E; congruence.
Qed.

Lemma before_idem m s : before m (before m s) = before m s.
Proof.
  induction s as [|c s IH].
  - now rewrite !before_nil.
  - cbn [before]. destruct (prefix m (String c s)) eqn:E.
    + apply before_nil.
    + cbn [before]; now rewrite (prefix_before m c s E), IH.
Qed.

Lemma contains_app m a r : contains m (a ++ m ++ r) = true.
Proof.
  induction a as [|c a IH]; cbn [append].
  - destruct (m ++ r) eqn:E; cbn [contains]; rewrite <- E, prefix_app; reflexivity.
  - cbn [contains]; rewrite IH; now destruct (prefix m _).
Qed.

Lemma contains_split m s :
  contains m s = true -> exists r, s = before m s ++ m ++ r.
Proof.
  induction s as [|c s IH]; cbn [contains before]; intros H.
  - destruct (prefix m "") eqn:E; [|discriminate].
    now apply prefix_split in E.
  - destruct (prefix m (String c s)) eqn:E.
    + now apply prefix_split in E.
    + destruct (IH H) as [r Hr]; exists r; cbn [append]; now rewrite <- Hr.
Qed.

(** Whatever follows the first occurrence of [m], the text before it is
    the same. *)
Lemma before_app m s r :
  contains m s = true -> before m (before m s ++ m ++ r) = before m s.
Proof.
  induction s as [|c s IH]; cbn [contains before]; intros H.
  - destruct (prefix m "") eqn:E; [|discriminate].
    cbn [append]. destruct (m ++ r) eqn:Em; cbn [before];
      rewrite <- Em, prefix_app; reflexivity.
  - destruct (prefix m (String c s)) eqn:E.
    + cbn [append]. destruct (m ++ r) eqn:Em; cbn [before];
        rewrite <- Em, prefix_app; reflexivity.
    + destruct (contains_split m s H) as [r0 Hr0].
      assert (Hl : String.length m <= String.length (String c (before m s) ++ m))
        by (rewrite append_length; lia).
      assert (Hp : prefix m (String c (before m s ++ m ++ r)) = false).
      { change (String c (before m s ++ m ++ r))
          with (String c (before m s) ++ m ++ r).
        rewrite <- append_assoc, (prefix_long _ _ _ Hl).
        rewrite <- (prefix_long _ _ r0 Hl), append_assoc.
        cbn [append]; now rewrite <- Hr0. }
      cbn [append before]; rewrite Hp, (IH H); reflexivity.
Qed.

Lemma truncate_before s : truncate (before marker s) = before marker s.
Proof.
  unfold truncate; destruct (contains marker _); [apply before_idem | reflexivity].
Qed.

Lemma truncate_app s r :
  contains marker s = true ->
  truncate (before marker s ++ marker ++ r) = before marker s.
Proof.
  intros H; unfold truncate; rewrite contains_app; now apply before_app.
Qed.

(** A page is read through its truncation only. *)
Lemma process_page_truncate data c c' :
  truncate c = truncate c' -> process_page data c = process_page data c'.
Proof. intros H; unfold process_page, page_lines; now rewrite H. Qed.

(** C6. A page whose text contains the marker Important Notice is cut at
    its first occurrence: the text splits into what comes before the
    marker, the marker, and the rest, and the rows of the page are those
    of the text before the marker, whatever follows the marker. *)
Theorem nothing_after_the_notice (content : string) :
  contains marker content = true ->
  let pre := before marker content in
  (exists post, content = pre ++ marker ++ post)
  /\ (forall post data,
        process_page data (pre ++ marker ++ post) = process_page data pre).
Proof.
  intros H pre; split; [now apply contains_split|].
  intros post data; apply process_page_truncate.
  unfold pre; now rewrite truncate_app, truncate_before.
Qed.

Lemma nothing_after_the_notice_witness :
  let pre := unlines ["01/02/2023 RENT"; "$900.00"; ""] in
  let post := unlines [""; "01/03/2023 FEE"; "$2.00"] in
  contains marker (pre ++ marker ++ post) = true
  /\ process_page [] (pre ++ marker ++ post) = process_page [] pre
  /\ process_page [] pre = [mkRow (Some "01/02/2023") "RENT" None None (Some "$900.00")]
  /\ process_page [] post = [mkRow (Some "01/03/2023") "FEE" None None (Some "$2.00")].
Proof.
  intros pre post.
  split; [reflexivity|].
  split; [|split; vm_compute; reflexivity].
  exact (proj2 (nothing_after_the_notice (pre ++ marker ++ post) eq_refl) post []).
Defined.

(** ** Scanning for amount tokens *)

Lemma span_app p s : fst (span p s) ++ snd (span p s) = s.
Proof.
  induction s as [|c s IH]; simpl; [reflexivity|].
  destruct (p c); [|reflexivity].
  destruct (span p s) as [a b]; simpl in *; now rewrite IH.
Qed.

Lemma amount_shape c ds d1 d2 close r :
  String "$" (String c ds ++ String "." (String d1 (String d2 (close ++ r))))
  = ("$" ++ String c ds ++ String "." (String d1 (String d2 close))) ++ r.
Proof. cbn [append]; do 2 f_equal; now rewrite append_assoc. Qed.

Lemma close_paren_split s : exists r, s = close_paren s ++ r.
Proof.
  destruct s as [|c s]; [now exists ""|]; simpl.
  destruct (Ascii.eqb_spec c ")") as [->|]; [now exists s | now eexists].
Qed.

(** A match at the head of [s] is a non-empty prefix of [s]. *)
Lemma amount_tail_prefix s t :
  amount_tail s = Some t -> exists c t' r, t = String c t' /\ s = t ++ r.
Proof.
  unfold amount_tail.
  destruct s as [|dollar s1]; [discriminate|].
  destruct (Ascii.eqb_spec dollar "$") as [->|]; cbv iota; [|discriminate].
  pose proof (span_app amount_body_char s1) as Hs.
  destruct (span amount_body_char s1) as [ds r0]; simpl in Hs.
  destruct ds as [|c ds]; [discriminate|].
  destruct r0 as [|dot [|d1 [|d2 s2]]]; try discriminate.
  destruct (Ascii.eqb_spec dot ".") as [->|]; cbn [andb]; [|discriminate].
  destruct (isdigit d1 && isdigit d2); [|discriminate].
  intros [= <-]; subst s1.
  destruct (close_paren_split s2) as [r Hr].
  do 2 eexists; exists r; split; [reflexivity|].
  rewrite Hr at 1; exact (amount_shape c ds d1 d2 (close_paren s2) r).
Qed.

Lemma match_amount_prefix s t :
  match_amount s = Some t -> exists c t' r, t = String c t' /\ s = t ++ r.
Proof.
  unfold match_amount.
  destruct s as [|c s']; [discriminate|].
  destruct (c =? "(")%char eqn:Ec; [|apply amount_tail_prefix].
  apply Ascii.eqb_eq in Ec as ->.
  destruct (amount_tail s') as [u|] eqn:E; [|discriminate].
  intros [= <-].
  destruct (amount_tail_prefix s' u E) as (c & t' & r & -> & ->).
  now exists "("%char, (String c t'), r.
Qed.

(** Once a match is found the scan resumes right after it. *)
Lemma scan_skip t r : scan (String.length t) (t ++ r) = scan 0 r.
Proof. induction t as [|c t IH]; [reflexivity | exact IH]. Qed.

Lemma scan_token s t r :
  match_amount s = Some t -> s = t ++ r -> scan 0 s = Tok t :: scan 0 r.
Proof.
  intros Hm Hs.
  destruct (match_amount_prefix s t Hm) as (c & t' & _ & -> & _).
  subst s; cbn [append scan]; cbn [append] in Hm; rewrite Hm.
  cbn [String.length]; rewrite Nat.sub_1_r; cbn [Nat.pred].
  now rewrite scan_skip.
Qed.

(** The pieces of a scan, put back together, are the scanned string: the
    substitution drops exactly the tokens [findall] reports. *)
Lemma unscan_scan s : unscan (scan 0 s) = s.
Proof.
  remember (String.length s) as n eqn:Hn.
  assert (Hle : String.length s <= n) by lia; clear Hn.
  revert s Hle; induction n as [|n IH]; intros [|c s] Hle; simpl in Hle;
    try reflexivity; try lia.
  destruct (match_amount (String c s)) as [t|] eqn:E.
  - destruct (match_amount_prefix _ _ E) as (c0 & t' & r & -> & Hs).
    rewrite (scan_token _ _ r E Hs); cbn [unscan].
    rewrite IH, <- Hs; [reflexivity|].
    cbn [append] in Hs; injection Hs as _ ->.
    rewrite append_length in Hle; lia.
  - cbn [scan]; rewrite E; cbn [unscan].
    rewrite IH; [reflexivity | lia].
Qed.

(** ** Tokens and whitespace *)

Lemma space_differs c x :
  isspace c = true -> isspace x = false -> (c =? x)%char = false.
Proof.
  intros Hc Hx; destruct (Ascii.eqb_spec c x); [congruence | reflexivity].
Qed.

Lemma span_stop p a c b :
  p c = false ->
  span p (a ++ String c b) = (fst (span p a), snd (span p a) ++ String c b).
Proof.
  intros Hc; induction a as [|x a IH]; simpl; [now rewrite Hc|].
  destruct (p x); [|reflexivity].
  rewrite IH; now destruct (span p a).
Qed.

Lemma space_not_digit c : isspace c = true -> isdigit c = false.
Proof.
  unfold isspace, isdigit; set (n := code c); intros H.
  destruct (N.leb_spec 48 n), (N.leb_spec n 57); try reflexivity.
  repeat rewrite orb_true_iff in H; repeat rewrite andb_true_iff in H.
  rewrite !N.leb_le, !N.eqb_eq in H; lia.
Qed.

Lemma space_not_body c : isspace c = true -> amount_body_char c = false.
Proof.
  intros Hc; unfold amount_body_char.
  now rewrite (space_differs c "," Hc eq_refl), (space_not_digit c Hc).
Qed.

Lemma close_paren_space s c b :
  isspace c = true -> close_paren (s ++ String c b) = close_paren s.
Proof.
  intros Hc; destruct s; simpl; [|reflexivity].
  now rewrite (space_differs c ")" Hc eq_refl).
Qed.

(** A match never reaches a whitespace character, nor looks past one. *)
Lemma amount_tail_space a c b :
  isspace c = true -> amount_tail (a ++ String c b) = amount_tail a.
Proof.
  intros Hc.
  pose proof (space_not_digit c Hc) as Hd.
  destruct a as [|dollar a]; cbn [append amount_tail].
  - now rewrite (space_differs c "$" Hc eq_refl).
  - destruct (dollar =? "$")%char; [|reflexivity].
    rewrite (span_stop _ _ _ _ (space_not_body c Hc)).
    destruct (span amount_body_char a) as [ds r]; cbn [fst snd].
    destruct ds as [|x ds]; [reflexivity|].
    destruct r as [|dot [|d1 [|d2 s2]]]; cbn [append].
    + destruct b as [|d1 [|d2 s2]]; try reflexivity.
      now rewrite (space_differs c "." Hc eq_refl).
    + destruct b as [|d2 s2]; [reflexivity|].
      now rewrite Hd, andb_false_r.
    + now rewrite Hd, andb_false_r.
    + now rewrite (close_paren_space _ _ _ Hc).
Qed.

Lemma match_amount_space a c b :
  isspace c = true -> match_amount (a ++ String c b) = match_amount a.
Proof.
  intros Hc; destruct a as [|x a]; cbn [append match_amount].
  - rewrite (space_differs c "(" Hc eq_refl).
    apply (amount_tail_space "" c b Hc).
  - destruct (x =? "(")%char.
    + now rewrite (amount_tail_space a c b Hc).
    + apply (amount_tail_space (String x a) c b Hc).
Qed.

Lemma match_amount_at_space c b :
  isspace c = true -> match_amount (String c b) = None.
Proof. intros Hc; exact (match_amount_space "" c b Hc). Qed.

(** The scan of a text is the scan of what comes before a whitespace
    character, that character, and the scan of what comes after. *)
Lemma scan_space a c b :
  isspace c = true ->
  scan 0 (a ++ String c b) = (scan 0 a ++ Lit c :: scan 0 b)%list.
Proof.
  intros Hc.
  remember (String.length a) as n eqn:Hn.
  assert (Hle : String.length a <= n) by lia; clear Hn.
  revert a Hle; induction n as [|n IH]; intros [|x a] Hle; simpl in Hle; try lia.
  - cbn [append scan app]; now rewrite (match_amount_at_space c b Hc).
  - cbn [append scan app]; now rewrite (match_amount_at_space c b Hc).
  - pose proof (match_amount_space (String x a) c b Hc) as Hm.
    destruct (match_amount (String x a)) as [t|] eqn:E.
    + destruct (match_amount_prefix _ _ E) as (c0 & t' & r & -> & Hs).
      rewrite (scan_token _ _ r E Hs).
      rewrite (scan_token _ _ (r ++ String c b) Hm)
        by (rewrite Hs at 1; apply append_assoc).
      rewrite IH; [reflexivity|].
      cbn [append] in Hs; injection Hs as _ ->.
      rewrite append_length in Hle; lia.
    + cbn [append scan] in Hm |- *; rewrite Hm, E.
      rewrite IH; [reflexivity | lia].
Qed.

Lemma tokens_app ps qs : tokens (ps ++ qs) = (tokens ps ++ tokens qs)%list.
Proof.
  induction ps as [|[c|t] ps IH]; simpl; [reflexivity | exact IH | now rewrite IH].
Qed.

Lemma findall_space a c b :
  isspace c = true ->
  findall_amounts (a ++ String c b) = (findall_amounts a ++ findall_amounts b)%list.
Proof.
  intros Hc; unfold findall_amounts.
  now rewrite (scan_space a c b Hc), tokens_app.
Qed.

Lemma findall_at_space c b :
  isspace c = true -> findall_amounts (String c b) = findall_amounts b.
Proof. intros Hc; exact (findall_space "" c b Hc). Qed.

Lemma findall_blank ws : has_ink ws = false -> findall_amounts ws = [].
Proof.
  induction ws as [|c ws IH]; [reflexivity|]; simpl; intros H.
  apply orb_false_iff in H as [Hc Hws]; apply negb_false_iff in Hc.
  now rewrite (findall_at_space c ws Hc), (IH Hws).
Qed.

Lemma findall_trailing a ws :
  has_ink ws = false -> findall_amounts (a ++ ws) = findall_amounts a.
Proof.
  destruct ws as [|c ws]; simpl; intros H.
  - now rewrite append_assoc_nil.
  - apply orb_false_iff in H as [Hc Hws]; apply negb_false_iff in Hc.
    now rewrite (findall_space a c ws Hc), (findall_blank ws Hws), app_nil_r.
Qed.

Lemma findall_lstrip s : findall_amounts (lstrip s) = findall_amounts s.
Proof.
  induction s as [|c s IH]; [reflexivity|]; simpl.
  destruct (isspace c) eqn:Hc; [|reflexivity].
  now rewrite (findall_at_space c s Hc).
Qed.

Lemma rstrip_split s : exists ws, s = rstrip s ++ ws /\ has_ink ws = false.
Proof.
  induction s as [|c s (ws & Hs & Hws)]; [now exists ""|]; simpl.
  destruct (rstrip s) as [|x r]; simpl in Hs.
  - destruct (isspace c) eqn:Hc.
    + exists (String c s); split; [reflexivity|].
      simpl; now rewrite Hc, Hs.
    + exists ws; split; [simpl; now rewrite <- Hs | exact Hws].
  - exists ws; split; [simpl; now rewrite <- Hs | exact Hws].
Qed.

(** Stripping a text neither adds nor removes a token. *)
Lemma findall_strip s : findall_amounts (strip s) = findall_amounts s.
Proof.
  unfold strip; rewrite findall_lstrip.
  destruct (rstrip_split s) as (ws & Hs & Hws).
  rewrite Hs at 2; now rewrite findall_trailing.
Qed.

Lemma findall_join parts :
  findall_amounts (join " " parts) = concat (map findall_amounts parts).
Proof.
  induction parts as [|part parts IH]; [reflexivity|].
  unfold join in *.
  destruct parts as [|part' parts]; [cbn; now rewrite app_nil_r|].
  change (String.concat " " (part :: part' :: parts))
    with (part ++ String " " (String.concat " " (part' :: parts))).
  rewrite (findall_space part " " _ eq_refl), IH; reflexivity.
Qed.

Lemma split_cons x s :
  split (String x s) =
    if isspace x then split s
    else match s with
         | EmptyString => [String x EmptyString]
         | String c _ =>
             if isspace c then String x EmptyString :: split s
             else match split s with
                  | w :: ws => String x w :: ws
                  | [] => [String x EmptyString]
                  end
         end.
Proof. reflexivity. Qed.

Lemma split_word x s :
  isspace x = false ->
  split (String x s)
  = String x (fst (span (fun c => negb (isspace c)) s))
    :: split (snd (span (fun c => negb (isspace c)) s)).
Proof.
  revert x; induction s as [|c s IH]; intros x Hx; rewrite split_cons, Hx;
    [reflexivity|].
  cbn [span]; destruct (isspace c) eqn:Hc; cbn [negb fst snd]; [reflexivity|].
  rewrite (IH c Hc).
  now destruct (span (fun c0 => negb (isspace c0)) s).
Qed.

(** The words of a text carry all of its tokens. *)
Lemma findall_split s :
  concat (map findall_amounts (split s)) = findall_amounts s.
Proof.
  remember (String.length s) as n eqn:Hn.
  assert (Hle : String.length s <= n) by lia; clear Hn.
  revert s Hle; induction n as [|n IH]; intros [|x s] Hle; simpl in Hle;
    try reflexivity; try lia.
  destruct (isspace x) eqn:Hx.
  - rewrite split_cons, Hx, (findall_at_space x s Hx).
    apply IH; lia.
  - rewrite (split_word x s Hx); cbn [map concat].
    pose proof (span_app (fun c => negb (isspace c)) s) as Hs.
    destruct (span (fun c => negb (isspace c)) s) as [w r] eqn:Esp; cbn [fst snd] in *.
    assert (Hr : r = EmptyString \/ exists c r', r = String c r' /\ isspace c = true).
    { clear - Esp. revert w r Esp; induction s as [|c s IHs]; intros w r; simpl.
      - intros [= <- <-]; now left.
      - destruct (isspace c) eqn:Hc; simpl.
        + intros [= <- <-]; right; now exists c, s.
        + destruct (span (fun c0 => negb (isspace c0)) s) as [w0 r0].
          intros [= <- <-]; now apply (IHs w0). }
    destruct Hr as [->|(c & r' & -> & Hc)].
    + rewrite <- Hs, append_assoc_nil; cbn; now rewrite app_nil_r.
    + rewrite <- Hs.
      change (String x (w ++ String c r')) with (String x w ++ String c r').
      rewrite (findall_space _ c r' Hc); f_equal.
      rewrite split_cons, Hc; apply IH.
      rewrite <- Hs, append_length in Hle; simpl in Hle; lia.
Qed.

(** Collapsing the whitespace of a text neither adds nor removes a token. *)
Lemma findall_normalized x :
  findall_amounts (join " " (split x)) = findall_amounts x.
Proof. now rewrite findall_join, findall_split. Qed.

(** ** The date-prefixed line and its lookahead *)

Lemma assign_slots p q a : slots p = slots q -> slots (assign p a) = slots (assign q a).
Proof.
  destruct p as [pd pn pc pe pb], q as [qd qn qc qe qb].
  unfold slots, assign; simpl; intros [= -> -> ->].
  destruct qb; [destruct (contains "(" a)|]; reflexivity.
Qed.

(** The classifier reads and writes the three amount slots only. *)
Lemma classify_slots l p q : slots p = slots q -> slots (classify l p) = slots (classify l q).
Proof.
  intros H; induction l as [|a l IH]; [exact H|].
  rewrite !classify_cons; now apply assign_slots.
Qed.

Lemma append_nonblank_slots part p : slots (append_nonblank part p) = slots p.
Proof. unfold append_nonblank; now destruct (nonblank part). Qed.

Lemma start_transaction_slots d g2 : slots (start_transaction d g2) = (None, None, None).
Proof.
  unfold start_transaction.
  destruct (nonblank (strip g2)); [|reflexivity].
  now rewrite append_nonblank_slots.
Qed.

Lemma start_transaction_date d g2 : date (start_transaction d g2) = Some d.
Proof.
  unfold start_transaction.
  destruct (nonblank (strip g2)); [|reflexivity].
  now rewrite append_nonblank_date.
Qed.

Lemma start_transaction_description d g2 :
  contains marker (strip g2) = false ->
  description (start_transaction d g2) = if nonblank (strip g2) then [strip g2] else [].
Proof.
  intros H; unfold start_transaction, append_nonblank, cut_at_marker; rewrite H.
  destruct (nonblank (strip g2)); reflexivity.
Qed.

(** The first group of a date match is the ten leading characters and the
    second group is cut from what follows them. *)
Lemma date_match_split line d g2 :
  date_match line = Some (d, g2) ->
  exists rest, line = d ++ rest /\ String.length d = 10
               /\ g2 = upto_newline (lstrip rest).
Proof.
  unfold date_match.
  destruct line as [|m1 [|m2 [|s1 [|d1 [|d2 [|s2 [|y1 [|y2 [|y3 [|y4 rest]]]]]]]]]];
    try discriminate.
  - destruct s1 as [[] [] [] [] [] [] [] []]; discriminate.
  - destruct s1 as [[] [] [] [] [] [] [] []]; discriminate.
  - destruct s1 as [[] [] [] [] [] [] [] []]; discriminate.
  - destruct s1 as [[] [] [] [] [] [] [] []]; try discriminate;
      destruct s2 as [[] [] [] [] [] [] [] []]; discriminate.
  - destruct s1 as [[] [] [] [] [] [] [] []]; try discriminate;
      destruct s2 as [[] [] [] [] [] [] [] []]; discriminate.
  - destruct s1 as [[] [] [] [] [] [] [] []]; try discriminate;
      destruct s2 as [[] [] [] [] [] [] [] []]; discriminate.
  - destruct s1 as [[] [] [] [] [] [] [] []]; try discriminate;
      destruct s2 as [[] [] [] [] [] [] [] []]; discriminate.
  - destruct s1 as [[] [] [] [] [] [] [] []]; try discriminate;
      destruct s2 as [[] [] [] [] [] [] [] []]; try discriminate.
    destruct (_ && _); [|discriminate].
    intros [= <- <-]; exists rest; repeat split; reflexivity.
Qed.

(** The loop at a date-prefixed line that is not a header line. *)
Lemma segment_date_line raw rest st d g2 :
  is_header (strip raw) = false ->
  date_match (strip raw) = Some (d, g2) ->
  segment (raw :: rest) st =
    let transaction_data := save_previous (fst st) (snd st) in
    let cur := start_transaction d g2 in
    match rest with
    | [] => (transaction_data, cur)
    | raw' :: rest' =>
        match findall_amounts (strip raw') with
        | [] => segment rest (transaction_data, cur)
        | amounts =>
            segment rest' (transaction_data, consume_next (strip raw') amounts cur)
        end
    end.
Proof. intros Hh Hd; cbn [segment]; rewrite Hh, Hd; reflexivity. Qed.

(** The loop at a line that is neither a header nor date-prefixed. *)
Lemma segment_continuation_line raw rest st :
  is_header (strip raw) = false ->
  date_match (strip raw) = None ->
  segment (raw :: rest) st = segment rest (fst st, continuation (strip raw) (snd st)).
Proof. intros Hh Hd; cbn [segment]; rewrite Hh, Hd; reflexivity. Qed.

Lemma segment_header_line raw rest st :
  is_header (strip raw) = true -> segment (raw :: rest) st = segment rest st.
Proof. intros Hh; cbn [segment]; rewrite Hh; reflexivity. Qed.






(** ** Pages with a single date-prefixed line *)

Lemma date_lines_cons raw rest :
  date_lines (raw :: rest) = (if is_date_line raw then 1 else 0) + date_lines rest.
Proof. unfold date_lines; simpl; now destruct (is_date_line raw). Qed.

Lemma save_previous_no_date data p : date p = None -> save_previous data p = data.
Proof. intros H; unfold save_previous, emit_guard; now rewrite H. Qed.

(** Nothing is pushed inside the loop unless a date-prefixed line is met
    while a transaction is open. *)
Lemma no_mid_page_row lines st :
  date_lines lines = 0 \/ (date (snd st) = None /\ date_lines lines <= 1) ->
  fst (segment lines st) = fst st.
Proof.
  functional induction (segment lines st); intros H.
  - reflexivity.
  - apply IHp. rewrite date_lines_cons in H.
    destruct H as [H|[Hd H]]; [left | right; split; auto]; lia.
  - assert (Hr : is_date_line raw = true) by (unfold is_date_line; now rewrite e1).
    rewrite date_lines_cons, Hr in H; simpl.
    destruct H as [H|[Hd _]]; [discriminate|].
    now apply save_previous_no_date.
  - assert (Hr : is_date_line raw = true) by (unfold is_date_line; now rewrite e1).
    rewrite date_lines_cons, Hr in H.
    destruct H as [H|[Hd H]]; [discriminate|].
    rewrite IHp; simpl; [now apply save_previous_no_date | left; lia].
  - assert (Hr : is_date_line raw = true) by (unfold is_date_line; now rewrite e1).
    rewrite date_lines_cons, Hr, date_lines_cons in H.
    destruct H as [H|[Hd H]]; [discriminate|].
    rewrite IHp; simpl; [now apply save_previous_no_date | left; lia].
  - assert (Hr : is_date_line raw = false) by (unfold is_date_line; now rewrite e1).
    rewrite date_lines_cons, Hr in H.
    rewrite IHp; [reflexivity|]; simpl.
    rewrite continuation_date.
    destruct H as [H|[Hd H]]; [left | right; split; auto]; lia.
Qed.

(** C9. On a page whose filtered lines hold exactly one date-prefixed
    line, the loop pushes no row, and the end of the page pushes the open
    transaction when it passes the emptiness and exclusion checks and
    nothing otherwise: one row, or none exactly when the checks fail. *)
Theorem single_date_line_page (content : string) (data : list Row) :
  date_lines (page_lines content) = 1 ->
  let p := snd (segment (page_lines content) (data, fresh None)) in
  let passes := emit_guard p && negb (exclude_search (assemble p)) in
  fst (segment (page_lines content) (data, fresh None)) = data
  /\ process_page data content = (data ++ if passes then [row_of p] else [])%list
  /\ (passes = true -> List.length (process_page data content) = List.length data + 1)
  /\ (passes = false -> process_page data content = data).
Proof.
  intros H p passes.
  assert (Hfst : fst (segment (page_lines content) (data, fresh None)) = data).
  { rewrite no_mid_page_row; [reflexivity|]. right; simpl; split; [reflexivity | lia]. }
  assert (Hpage : process_page data content
                  = (data ++ if passes then [row_of p] else [])%list).
  { unfold process_page; rewrite save_last_rows, Hfst; reflexivity. }
  split; [exact Hfst|]. split; [exact Hpage|].
  split; intros Hp; rewrite Hpage, Hp.
  - rewrite length_app; reflexivity.
  - apply app_nil_r.
Qed.

Lemma single_date_line_page_witness :
  process_page [] (unlines ["01/02/2023 RENT"; "$900.00"; "PAID BY CHECK"])
  = [mkRow (Some "01/02/2023") "RENT PAID BY CHECK" None None (Some "$900.00")]
  /\ process_page [] (unlines ["01/02/2023 Member"; "FDIC"]) = [].
Proof.
  split.
  - exact (proj1 (proj2 (single_date_line_page
                           (unlines ["01/02/2023 RENT"; "$900.00"; "PAID BY CHECK"])
                           [] eq_refl))).
  - exact (proj2 (proj2 (proj2 (single_date_line_page
                                  (unlines ["01/02/2023 Member"; "FDIC"])
                                  [] eq_refl))) eq_refl).
Defined.

(** ** The balance slot *)

Lemma classify_balance_first l a p :
  balance p = None -> balance (classify (l ++ [a]) p) = Some a.
Proof.
  intros Hb; induction l as [|x l IH].
  - cbn [app]; rewrite classify_cons, classify_nil; unfold assign; now rewrite Hb.
  - cbn [app]; rewrite classify_cons; now apply assign_balance_kept.
Qed.

(** C10. Once the balance slot of the open transaction holds a token, no
    token classified afterwards replaces it: not in one call of the
    classifier, where the rightmost token of a line takes the empty slot
    and the others go to credits or debits, and not on any of the lines
    read before the next date-prefixed line. *)
Theorem balance_never_overwritten :
  (forall amounts p b,
      balance p = Some b -> balance (classify amounts p) = Some b)
  /\ (forall amounts a p,
        balance p = None -> balance (classify (amounts ++ [a]) p) = Some a)
  /\ (forall lines st b,
        Forall (fun raw => is_header (strip raw) = true
                           \/ date_match (strip raw) = None) lines ->
        balance (snd st) = Some b ->
        balance (snd (segment lines st)) = Some b
        /\ date (snd (segment lines st)) = date (snd st)).
Proof.
  split; [exact classify_balance_kept|].
  split; [exact classify_balance_first|].
  intros lines st; functional induction (segment lines st); intros b HL Hb.
  - now split.
  - inversion HL; subst; now apply IHp.
  - inversion HL as [|? ? [Hh|Hd] _]; subst; congruence.
  - inversion HL as [|? ? [Hh|Hd] _]; subst; congruence.
  - inversion HL as [|? ? [Hh|Hd] _]; subst; congruence.
  - inversion HL; subst.
    destruct (IHp b) as [Hb' Hd']; auto.
    + simpl; now apply continuation_balance_kept.
    + split; [exact Hb'|]. rewrite Hd'; simpl; apply continuation_date.
Qed.

Lemma balance_never_overwritten_witness :
  let p := mkPending (Some "01/02/2023") ["RENT"] None None (Some "$900.00") in
  balance (classify ["$1.00"; "($2.00)"; "$3.00"] p) = Some "$900.00"
  /\ balance (snd (segment ["$5.00 $6.00"; "Balance $7.00"; "($8.00)"] ([], p)))
     = Some "$900.00".
Proof.
  intros p; destruct balance_never_overwritten as (Hc & _ & Hs).
  split; [exact (Hc ["$1.00"; "($2.00)"; "$3.00"] p "$900.00" eq_refl)|].
  refine (proj1 (Hs ["$5.00 $6.00"; "Balance $7.00"; "($8.00)"] ([], p) "$900.00" _ eq_refl)).
  constructor; [right; reflexivity|].
  constructor; [left; reflexivity|].
  constructor; [right; reflexivity | constructor].
Defined.

(** * Further properties of the extraction *)

(** ** Pages and files are independent *)

Lemma save_previous_frame data data' p :
  save_previous (data ++ data') p = (data ++ save_previous data' p)%list.
Proof.
  unfold save_previous; destruct (emit_guard p); [now rewrite app_assoc | reflexivity].
Qed.

(** The rows already collected are carried through the loop untouched. *)
Lemma segment_frame lines st data :
  segment lines (data ++ fst st, snd st)%list
  = ((data ++ fst (segment lines st))%list, snd (segment lines st)).
Proof.
  functional induction (segment lines st).
  - reflexivity.
  - now rewrite segment_header_line.
  - rewrite (segment_date_line raw [] _ d g2 e0 e1); cbn [fst snd].
    now rewrite save_previous_frame.
  - rewrite (segment_date_line raw (raw' :: rest') _ d g2 e0 e1); cbn [fst snd].
    rewrite e4, save_previous_frame. exact IHp.
  - rewrite (segment_date_line raw (raw' :: rest') _ d g2 e0 e1); cbn [fst snd].
    rewrite e4, save_previous_frame. exact IHp.
  - rewrite (segment_continuation_line raw rest _ e0 e1); cbn [fst snd].
    exact IHp.
Qed.

Lemma process_page_frame data content :
  process_page data content = (data ++ process_page [] content)%list.
Proof.
  unfold process_page.
  pose proof (segment_frame (page_lines content) ([], fresh None) data) as H.
  cbn [fst snd] in H; rewrite app_nil_r in H; rewrite H; cbn [fst snd].
  rewrite !save_last_rows; cbn [app]; now rewrite app_assoc.
Qed.

Lemma pages_frame pages data :
  fold_left process_page pages data = (data ++ flat_map (process_page []) pages)%list.
Proof.
  revert data; induction pages as [|pg pages IH]; intros data; cbn [fold_left flat_map].
  - now rewrite app_nil_r.
  - now rewrite IH, process_page_frame, app_assoc.
Qed.

Lemma process_file_frame data f : process_file data f = (data ++ file_rows f)%list.
Proof.
  unfold process_file, file_rows.
  destruct (endswith ".pdf" (fst f)); [apply pages_frame | now rewrite app_nil_r].
Qed.

Lemma files_frame files data :
  fold_left process_file files data = (data ++ flat_map file_rows files)%list.
Proof.
  revert data; induction files as [|f files IH]; intros data; cbn [fold_left flat_map].
  - now rewrite app_nil_r.
  - now rewrite IH, process_file_frame, app_assoc.
Qed.

(** X1. The rows collected from a folder are the rows of its files one
    after the other, each file giving the rows of its pages in order when
    its name ends in .pdf and nothing otherwise, and a page gives the same
    rows whatever was collected before it: collecting two lists of files in
    sequence is collecting each and appending. *)
Theorem collect_is_concatenation :
  (forall data content,
      process_page data content = (data ++ process_page [] content)%list)
  /\ (forall files, collect files = flat_map file_rows files)
  /\ (forall files files',
        collect (files ++ files') = (collect files ++ collect files')%list).
Proof.
  split; [exact process_page_frame|].
  assert (H : forall files, collect files = flat_map file_rows files).
  { intros files; unfold collect; now rewrite files_frame. }
  split; [exact H|].
  intros files files'; now rewrite !H, flat_map_app.
Qed.

(** ** At most one row for each opening line *)

Lemma date_match_nonblank line d g2 :
  date_match line = Some (d, g2) -> nonblank d = true.
Proof.
  intros H; destruct (date_match_split _ _ _ H) as (_ & _ & Hl & _).
  now destruct d.
Qed.

Lemma is_open_start d g2 : nonblank d = true -> is_open (start_transaction d g2) = 1.
Proof.
  intros H; unfold is_open; rewrite start_transaction_date; simpl; now rewrite H.
Qed.

Lemma is_open_consume_next next_line amounts p :
  is_open (consume_next next_line amounts p) = is_open p.
Proof.
  unfold is_open, consume_next; now rewrite classify_date, append_nonblank_date.
Qed.

Lemma is_open_continuation line p : is_open (continuation line p) = is_open p.
Proof. unfold is_open; now rewrite continuation_date. Qed.

Lemma save_previous_length data p :
  List.length (save_previous data p) <= List.length data + is_open p.
Proof.
  unfold save_previous, emit_guard, is_open.
  destruct (truthy (date p)); simpl; [|lia].
  destruct (_ || _); [rewrite length_app; simpl|]; lia.
Qed.

Lemma last_rows_length p : List.length (last_rows p) <= is_open p.
Proof.
  unfold last_rows, emit_guard, is_open.
  destruct (truthy (date p)); simpl; [|lia].
  destruct (_ && _); simpl; lia.
Qed.

Lemma opening_lines_cons raw rest :
  opening_lines (raw :: rest)
  = (if opening_line raw then 1 else 0) + opening_lines rest.
Proof. unfold opening_lines; simpl; now destruct (opening_line raw). Qed.

Lemma opening_lines_tail raw rest : opening_lines rest <= opening_lines (raw :: rest).
Proof. rewrite opening_lines_cons; lia. Qed.

Lemma opening_lines_date raw rest d g2 :
  is_header (strip raw) = false ->
  date_match (strip raw) = Some (d, g2) ->
  opening_lines (raw :: rest) = 1 + opening_lines rest.
Proof.
  intros Hh Hd; rewrite opening_lines_cons.
  unfold opening_line, is_date_line; now rewrite Hh, Hd.
Qed.

Lemma opening_lines_other raw rest :
  is_header (strip raw) = true \/ date_match (strip raw) = None ->
  opening_lines (raw :: rest) = opening_lines rest.
Proof.
  intros H; rewrite opening_lines_cons; unfold opening_line, is_date_line.
  destruct H as [-> | ->]; [reflexivity | now rewrite andb_false_r].
Qed.

(** Rows pushed and the open transaction, against the opening lines read. *)
Lemma segment_row_count lines st :
  List.length (fst (segment lines st)) + is_open (snd (segment lines st))
  <= List.length (fst st) + is_open (snd st) + opening_lines lines.
Proof.
  functional induction (segment lines st); cbn [fst snd] in *.
  - lia.
  - rewrite (opening_lines_other raw rest (or_introl e0)); exact IHp.
  - rewrite (opening_lines_date raw [] d g2 e0 e1).
    pose proof (save_previous_length (fst st) (snd st)).
    rewrite (is_open_start d g2 (date_match_nonblank _ _ _ e1)). lia.
  - rewrite (opening_lines_date raw _ d g2 e0 e1).
    pose proof (save_previous_length (fst st) (snd st)).
    rewrite (is_open_start d g2 (date_match_nonblank _ _ _ e1)) in IHp. lia.
  - rewrite (opening_lines_date raw _ d g2 e0 e1).
    pose proof (save_previous_length (fst st) (snd st)).
    pose proof (opening_lines_tail raw' rest').
    rewrite is_open_consume_next,
      (is_open_start d g2 (date_match_nonblank _ _ _ e1)) in IHp. lia.
  - rewrite (opening_lines_other raw rest (or_intror e1)).
    rewrite is_open_continuation in IHp; exact IHp.
Qed.

(** X2. A page adds at most as many rows as it has opening lines, that is
    filtered lines that are date-prefixed and hold no column title; the
    table has at most as many rows as were collected. *)
Theorem rows_bounded_by_opening_lines :
  (forall data content,
      List.length (process_page data content)
      <= List.length data + opening_lines (page_lines content))
  /\ (forall files,
        List.length (extract_transactions_from_pdf files)
        <= List.length (collect files)).
Proof.
  split.
  - intros data content; unfold process_page; rewrite save_last_rows, length_app.
    pose proof (segment_row_count (page_lines content) (data, fresh None)) as H.
    pose proof (last_rows_length
                  (snd (segment (page_lines content) (data, fresh None)))) as H'.
    cbn [fst snd is_open fresh date truthy] in H. lia.
  - intros files; unfold extract_transactions_from_pdf.
    rewrite (Permutation_length (sort_values_perm _)), length_map.
    unfold drop_excluded; apply filter_length_le.
Qed.

(** ** The classifier on a new transaction *)

Lemma pending_eta p :
  p = mkPending (date p) (description p) (credits p) (debits p) (balance p).
Proof. now destruct p. Qed.

Lemma classify_snoc l a p : classify (l ++ [a]) p = classify l (assign p a).
Proof. unfold classify; now rewrite rev_app_distr. Qed.

(** X3. Classifying the tokens of a line into a transaction with no slot
    assigned: the rightmost token is the balance, and of the others the
    leftmost that holds no opening parenthesis is the credit and the
    leftmost that holds one is the debit; a closing parenthesis plays no
    part. Date and description are untouched. *)
Theorem classify_into_empty_slots (l : list string) (a : string)
    (d : option string) (parts : list string) :
  classify (l ++ [a]) (mkPending d parts None None None)
  = mkPending d parts (find is_credit l) (find is_debit l) (Some a).
Proof.
  rewrite classify_snoc.
  set (q := assign (mkPending d parts None None None) a).
  assert (Hb : balance q = Some a) by reflexivity.
  rewrite (pending_eta (classify l q)).
  rewrite classify_date, classify_description.
  rewrite (classify_credits l q a Hb), (classify_debits l q a Hb).
  rewrite (classify_balance_kept l q a Hb).
  cbn; f_equal; now destruct (find _ l).
Qed.

(** ** Invariants of the loop over the lines *)

Section Invariant.

Variable I : PendingTransaction -> Prop.
Variable R : Row -> Prop.

Hypothesis I_start :
  forall line d g2, date_match line = Some (d, g2) -> I (start_transaction d g2).
Hypothesis I_next :
  forall next_line p, I p -> I (consume_next next_line (findall_amounts next_line) p).
Hypothesis I_continuation : forall line p, I p -> I (continuation line p).
Hypothesis R_row : forall p, I p -> emit_guard p = true -> R (row_of p).

Lemma save_previous_invariant data p :
  Forall R data -> I p -> Forall R (save_previous data p).
Proof.
  intros Hd Hp; unfold save_previous.
  destruct (emit_guard p) eqn:E; [|exact Hd].
  apply Forall_app; split; [exact Hd | constructor; auto].
Qed.

Lemma segment_invariant lines st :
  Forall R (fst st) -> I (snd st) ->
  Forall R (fst (segment lines st)) /\ I (snd (segment lines st)).
Proof.
  functional induction (segment lines st); intros Hd Hp; cbn [fst snd] in *.
  - now split.
  - now apply IHp.
  - split; [now apply save_previous_invariant | eapply I_start; eassumption].
  - apply IHp; [now apply save_previous_invariant | eapply I_start; eassumption].
  - apply IHp; [now apply save_previous_invariant|].
    rewrite <- e4; apply I_next; eapply I_start; eassumption.
  - apply IHp; [exact Hd | now apply I_continuation].
Qed.

Lemma process_page_invariant data content :
  I (fresh None) -> Forall R data -> Forall R (process_page data content).
Proof.
  intros H0 Hd; unfold process_page; rewrite save_last_rows.
  destruct (segment_invariant (page_lines content) (data, fresh None) Hd H0)
    as [Hrows Hp].
  apply Forall_app; split; [exact Hrows|].
  unfold last_rows; destruct (emit_guard _) eqn:E; simpl; [|constructor].
  destruct (exclude_search _); simpl; constructor; [auto | constructor].
Qed.

Lemma collect_invariant files : I (fresh None) -> Forall R (collect files).
Proof.
  intros H0.
  unfold collect; rewrite files_frame; cbn [app].
  apply Forall_flat_map, Forall_forall; intros f _.
  unfold file_rows; destruct (endswith ".pdf" (fst f)); [|constructor].
  apply Forall_flat_map, Forall_forall; intros content _.
  apply process_page_invariant; [exact H0 | constructor].
Qed.

End Invariant.

(** ** Dates of the rows *)

(** The first group of a date match is a date token by itself. *)
Lemma date_match_is_date line d g2 :
  date_match line = Some (d, g2) -> is_date d = true.
Proof.
  unfold date_match.
  destruct line as [|m1 [|m2 [|s1 [|d1 [|d2 [|s2 [|y1 [|y2 [|y3 [|y4 rest]]]]]]]]]];
    try discriminate.
  - destruct s1 as [[] [] [] [] [] [] [] []]; discriminate.
  - destruct s1 as [[] [] [] [] [] [] [] []]; discriminate.
  - destruct s1 as [[] [] [] [] [] [] [] []]; discriminate.
  - destruct s1 as [[] [] [] [] [] [] [] []]; try discriminate;
      destruct s2 as [[] [] [] [] [] [] [] []]; discriminate.
  - destruct s1 as [[] [] [] [] [] [] [] []]; try discriminate;
      destruct s2 as [[] [] [] [] [] [] [] []]; discriminate.
  - destruct s1 as [[] [] [] [] [] [] [] []]; try discriminate;
      destruct s2 as [[] [] [] [] [] [] [] []]; discriminate.
  - destruct s1 as [[] [] [] [] [] [] [] []]; try discriminate;
      destruct s2 as [[] [] [] [] [] [] [] []]; discriminate.
  - destruct s1 as [[] [] [] [] [] [] [] []]; try discriminate;
      destruct s2 as [[] [] [] [] [] [] [] []]; try discriminate.
    destruct (_ && _) eqn:E; [|discriminate].
    intros [= <- <-]; unfold is_date, date_match; rewrite E.
    cbn [lstrip upto_newline]; now rewrite String.eqb_refl.
Qed.

Lemma date_ok_start line d g2 :
  date_match line = Some (d, g2) -> date_ok (date (start_transaction d g2)) = true.
Proof.
  intros H; rewrite start_transaction_date; simpl.
  eapply date_match_is_date; eassumption.
Qed.

Lemma is_date_shape d :
  is_date d = true ->
  exists m1 m2 d1 d2 y1 y2 y3 y4,
    d = String m1 (String m2 (String "/" (String d1 (String d2 (String "/"
          (String y1 (String y2 (String y3 (String y4 EmptyString)))))))))
    /\ Forall (fun c => isdigit c = true) [m1; m2; d1; d2; y1; y2; y3; y4].
Proof.
  unfold is_date; destruct (date_match d) as [[d' g2]|] eqn:E; [|discriminate].
  intros H; apply andb_true_iff in H as [Hd _]; apply String.eqb_eq in Hd; subst d'.
  revert E; unfold date_match.
  destruct d as [|m1 [|m2 [|s1 [|d1 [|d2 [|s2 [|y1 [|y2 [|y3 [|y4 rest]]]]]]]]]];
    try discriminate.
  - destruct s1 as [[] [] [] [] [] [] [] []]; discriminate.
  - destruct s1 as [[] [] [] [] [] [] [] []]; discriminate.
  - destruct s1 as [[] [] [] [] [] [] [] []]; discriminate.
  - destruct s1 as [[] [] [] [] [] [] [] []]; try discriminate;
      destruct s2 as [[] [] [] [] [] [] [] []]; discriminate.
  - destruct s1 as [[] [] [] [] [] [] [] []]; try discriminate;
      destruct s2 as [[] [] [] [] [] [] [] []]; discriminate.
  - destruct s1 as [[] [] [] [] [] [] [] []]; try discriminate;
      destruct s2 as [[] [] [] [] [] [] [] []]; discriminate.
  - destruct s1 as [[] [] [] [] [] [] [] []]; try discriminate;
      destruct s2 as [[] [] [] [] [] [] [] []]; discriminate.
  - destruct s1 as [[] [] [] [] [] [] [] []]; try discriminate;
      destruct s2 as [[] [] [] [] [] [] [] []]; try discriminate.
    destruct (_ && _) eqn:E; [|discriminate].
    intros [= Hrest]; subst rest.
    exists m1, m2, d1, d2, y1, y2, y3, y4; split; [reflexivity|].
    do 7 (apply andb_true_iff in E as [E ?]).
    repeat (constructor; [assumption|]); constructor.
Qed.

(** X4. Every row collected, and every row of the table, carries a date
    that is a date token and nothing more: two digits, a slash, two digits,
    a slash and four digits. *)
Theorem dates_are_date_tokens (files : list file) :
  Forall (fun r => exists d, Date r = Some d /\ is_date d = true) (collect files)
  /\ Forall (fun t =>
               exists m1 m2 d1 d2 y1 y2 y3 y4,
                 t_date t
                 = Some (String m1 (String m2 (String "/" (String d1 (String d2
                     (String "/" (String y1 (String y2 (String y3
                     (String y4 EmptyString))))))))))
                 /\ Forall (fun c => isdigit c = true)
                           [m1; m2; d1; d2; y1; y2; y3; y4])
            (extract_transactions_from_pdf files).
Proof.
  assert (H : Forall (fun r => exists d, Date r = Some d /\ is_date d = true)
                     (collect files)).
  { apply (collect_invariant (fun p => date_ok (date p) = true)).
    - intros line d g2 Hm; eapply date_ok_start; eassumption.
    - intros next_line p Hp; unfold consume_next.
      now rewrite classify_date, append_nonblank_date.
    - intros line p Hp; now rewrite continuation_date.
    - intros p Hp Hg; unfold emit_guard in Hg.
      apply andb_true_iff in Hg as [Hg _]; cbn [row_of Date].
      destruct (date p) as [d|]; [now exists d | discriminate].
    - reflexivity. }
  split; [exact H|].
  unfold extract_transactions_from_pdf.
  eapply Permutation_Forall; [symmetry; apply sort_values_perm|].
  apply Forall_forall; intros t Ht.
  apply in_map_iff in Ht as (r & <- & Hr).
  apply filter_In in Hr as [Hr _].
  rewrite Forall_forall in H; destruct (H r Hr) as (d & Hd & Hok).
  destruct (is_date_shape d Hok) as (m1 & m2 & d1 & d2 & y1 & y2 & y3 & y4 & -> & Hdig).
  exists m1, m2, d1, d2, y1, y2, y3, y4; split; [exact Hd | exact Hdig].
Qed.

(** ** Amounts of the rows *)

Lemma span_fst_stop p s x r :
  p x = false ->
  span p (fst (span p s) ++ String x r) = (fst (span p s), String x r).
Proof.
  intros Hx; induction s as [|c s IH]; cbn [span].
  - cbn [fst append span]; now rewrite Hx.
  - destruct (p c) eqn:Hc.
    + destruct (span p s) as [a b]; cbn [fst append span] in *.
      now rewrite Hc, IH.
    + cbn [fst append span]; now rewrite Hx.
Qed.

Lemma close_paren_idem s : close_paren (close_paren s) = close_paren s.
Proof.
  destruct s as [|c s]; [reflexivity|]; simpl.
  now destruct (c =? ")")%char.
Qed.

(** The text of a match is matched whole by the pattern. *)
Lemma amount_tail_self s t :
  amount_tail s = Some t -> amount_tail t = Some t /\ exists t', t = String "$" t'.
Proof.
  unfold amount_tail at 1.
  destruct s as [|dollar s1]; [discriminate|].
  destruct (Ascii.eqb_spec dollar "$") as [->|]; cbv iota; [|discriminate].
  pose proof (fun r => span_fst_stop amount_body_char s1 "." r eq_refl) as Hsp.
  destruct (span amount_body_char s1) as [ds r0]; cbn [fst] in Hsp.
  destruct ds as [|c ds]; [discriminate|].
  destruct r0 as [|dot [|d1 [|d2 s2]]]; try discriminate.
  destruct (Ascii.eqb_spec dot ".") as [->|]; cbn [andb]; [|discriminate].
  destruct (isdigit d1 && isdigit d2) eqn:Ed; [|discriminate].
  intros [= <-]; split; [|now eexists].
  specialize (Hsp (String d1 (String d2 (close_paren s2)))).
  cbn [append] in Hsp |- *; unfold amount_tail.
  rewrite Ascii.eqb_refl, Hsp; cbv iota beta.
  rewrite Ascii.eqb_refl; cbn [andb]; rewrite Ed; cbn [append].
  now rewrite close_paren_idem.
Qed.

Lemma match_amount_self s t : match_amount s = Some t -> match_amount t = Some t.
Proof.
  unfold match_amount at 1.
  destruct s as [|c s']; [discriminate|].
  destruct (c =? "(")%char eqn:Ec.
  - destruct (amount_tail s') as [u|] eqn:E; [|discriminate].
    intros [= <-]; destruct (amount_tail_self _ _ E) as [Hu _].
    unfold match_amount; rewrite Ascii.eqb_refl, Hu; reflexivity.
  - intros H; destruct (amount_tail_self _ _ H) as [Ht [t' ->]].
    unfold match_amount; exact Ht.
Qed.

Lemma match_amount_is_amount s t : match_amount s = Some t -> is_amount t = true.
Proof.
  intros H; unfold is_amount; rewrite (match_amount_self _ _ H).
  apply String.eqb_refl.
Qed.

Lemma scan_tokens_are_amounts s :
  forall skip, Forall (fun t => is_amount t = true) (tokens (scan skip s)).
Proof.
  induction s as [|c s IH]; intros skip; [constructor|].
  cbn [scan]; destruct skip as [|k]; [|apply IH].
  destruct (match_amount (String c s)) as [t|] eqn:E; cbn [tokens]; [|apply IH].
  constructor; [eapply match_amount_is_amount; eassumption | apply IH].
Qed.

Lemma findall_are_amounts s :
  Forall (fun t => is_amount t = true) (findall_amounts s).
Proof. apply scan_tokens_are_amounts. Qed.

Lemma assign_slots_ok p a :
  is_amount a = true -> slots_ok p -> slots_ok (assign p a).
Proof.
  intros Ha (Hc & Hd & Hb); unfold slots_ok, assign.
  destruct (balance p) eqn:Eb; [destruct (contains "(" a) eqn:E|];
    cbn [set_credits set_debits set_balance credits debits balance
         credit_ok debit_ok balance_ok];
    rewrite ?Ha, ?E, ?Eb; repeat split; auto.
Qed.

Lemma classify_slots_ok l p :
  Forall (fun t => is_amount t = true) l -> slots_ok p -> slots_ok (classify l p).
Proof.
  intros Hl Hp; induction Hl as [|a l Ha Hl IH]; [exact Hp|].
  rewrite classify_cons; now apply assign_slots_ok.
Qed.

Lemma append_nonblank_slots_ok part p : slots_ok p -> slots_ok (append_nonblank part p).
Proof. unfold append_nonblank; now destruct (nonblank part). Qed.

Lemma start_transaction_slots_ok d g2 : slots_ok (start_transaction d g2).
Proof.
  pose proof (start_transaction_slots d g2) as H; unfold slots in H.
  injection H as Hc Hd Hb; unfold slots_ok; now rewrite Hc, Hd, Hb.
Qed.

Lemma continuation_slots_ok line p : slots_ok p -> slots_ok (continuation line p).
Proof.
  intros Hp; unfold continuation.
  pose proof (findall_are_amounts line) as Hl.
  destruct (findall_amounts line) as [|a l]; [exact Hp|].
  now apply classify_slots_ok, append_nonblank_slots_ok.
Qed.

(** Only the opening parenthesis is tested: a token that ends with a
    closing one and opens with none is a credit. *)
Lemma closing_parenthesis_is_not_tested :
  findall_amounts "$5.00) ($6.00 $9.00" = ["$5.00)"; "($6.00"; "$9.00"]
  /\ classify ["$5.00)"; "($6.00"; "$9.00"] (fresh (Some "01/02/2023"))
     = mkPending (Some "01/02/2023") [] (Some "$5.00)") (Some "($6.00") (Some "$9.00").
Proof. split; vm_compute; reflexivity. Qed.

Lemma fillna_ok (P : string -> bool) o :
  match o with Some t => P t | None => true end = true ->
  fillna o = EmptyString \/ P (fillna o) = true.
Proof. destruct o; simpl; auto. Qed.

(** X5. In every row of the table each amount column is empty or holds
    one amount token from end to end, as it was read; a debit always holds
    an opening parenthesis and a credit never holds one (a credit may end
    with a closing parenthesis). *)
Theorem amount_columns_hold_tokens (files : list file) :
  Forall (fun t =>
            (t_credits t = EmptyString
             \/ is_amount (t_credits t) && negb (contains "(" (t_credits t)) = true)
            /\ (t_debits t = EmptyString
                \/ is_amount (t_debits t) && contains "(" (t_debits t) = true)
            /\ (t_balance t = EmptyString \/ is_amount (t_balance t) = true))
         (extract_transactions_from_pdf files).
Proof.
  assert (H : Forall (fun r => credit_ok (Credits r) = true
                               /\ debit_ok (Debits r) = true
                               /\ balance_ok (Balance r) = true) (collect files)).
  { apply (collect_invariant slots_ok).
    - intros line d g2 _; apply start_transaction_slots_ok.
    - intros next_line p Hp; unfold consume_next.
      apply classify_slots_ok; [apply findall_are_amounts|].
      now apply append_nonblank_slots_ok.
    - intros line p; apply continuation_slots_ok.
    - intros p Hp _; exact Hp.
    - now repeat split. }
  unfold extract_transactions_from_pdf.
  eapply Permutation_Forall; [symmetry; apply sort_values_perm|].
  apply Forall_forall; intros t Ht.
  apply in_map_iff in Ht as (r & <- & Hr).
  apply filter_In in Hr as [Hr _].
  rewrite Forall_forall in H; destruct (H r Hr) as (Hc & Hd & Hb).
  cbn [finalize t_credits t_debits t_balance].
  split; [|split].
  - exact (fillna_ok (fun t => is_amount t && negb (contains "(" t)) _ Hc).
  - exact (fillna_ok (fun t => is_amount t && contains "(" t) _ Hd).
  - exact (fillna_ok is_amount _ Hb).
Qed.

(** ** The lines handed to the loop *)

Lemma rstrip_cons c s :
  rstrip (String c s) =
    match rstrip s with
    | EmptyString => if isspace c then EmptyString else String c EmptyString
    | r => String c r
    end.
Proof. reflexivity. Qed.

Lemma rstrip_idem s : rstrip (rstrip s) = rstrip s.
Proof.
  induction s as [|c s IH]; [reflexivity|].
  rewrite rstrip_cons; destruct (rstrip s) as [|x r] eqn:E.
  - destruct (isspace c) eqn:Hc; [reflexivity|].
    rewrite rstrip_cons; cbn [rstrip]; now rewrite Hc.
  - now rewrite rstrip_cons, IH.
Qed.

Lemma lstrip_idem s : lstrip (lstrip s) = lstrip s.
Proof.
  induction s as [|c s IH]; [reflexivity|]; cbn [lstrip].
  destruct (isspace c) eqn:Hc; [exact IH|].
  cbn [lstrip]; now rewrite Hc.
Qed.

Lemma lstrip_keeps_rstripped s : rstrip s = s -> rstrip (lstrip s) = lstrip s.
Proof.
  induction s as [|c s IH]; [reflexivity|]; cbn [lstrip]; intros H.
  destruct (isspace c) eqn:Hc; [|exact H].
  apply IH; rewrite rstrip_cons in H.
  destruct (rstrip s) as [|x r] eqn:E.
  - rewrite Hc in H; discriminate.
  - now injection H.
Qed.

(** Stripping twice is stripping once. *)
Lemma strip_idem s : strip (strip s) = strip s.
Proof.
  unfold strip.
  now rewrite (lstrip_keeps_rstripped _ (rstrip_idem s)), lstrip_idem.
Qed.

Lemma all_chars_lstrip P s : all_chars P s = true -> all_chars P (lstrip s) = true.
Proof.
  induction s as [|c s IH]; [reflexivity|]; cbn [lstrip all_chars]; intros H.
  apply andb_true_iff in H as [Hc Hs].
  destruct (isspace c); [now apply IH|].
  cbn [all_chars]; now rewrite Hc, Hs.
Qed.

Lemma all_chars_rstrip P s : all_chars P s = true -> all_chars P (rstrip s) = true.
Proof.
  induction s as [|c s IH]; [reflexivity|]; cbn [all_chars]; intros H.
  apply andb_true_iff in H as [Hc Hs]; specialize (IH Hs).
  rewrite rstrip_cons; destruct (rstrip s) as [|x r].
  - destruct (isspace c); [reflexivity|]; cbn [all_chars]; now rewrite Hc.
  - cbn [all_chars] in *; now rewrite Hc, IH.
Qed.

Lemma all_chars_strip P s : all_chars P s = true -> all_chars P (strip s) = true.
Proof. intros H; now apply all_chars_lstrip, all_chars_rstrip. Qed.

Lemma splitlines_cons c s :
  splitlines (String c s) =
    if islinebreak c then
      match s with
      | String c' s' =>
          if (c =? CR)%char && (c' =? LF)%char
          then EmptyString :: splitlines s'
          else EmptyString :: splitlines s
      | EmptyString => [EmptyString]
      end
    else
      match splitlines s with
      | l :: ls => String c l :: ls
      | [] => [String c EmptyString]
      end.
Proof. reflexivity. Qed.

(** No line holds a line boundary. *)
Lemma splitlines_no_break s :
  Forall (fun l => all_chars not_linebreak l = true) (splitlines s).
Proof.
  remember (String.length s) as n eqn:Hn.
  assert (Hle : String.length s <= n) by lia; clear Hn.
  revert s Hle; induction n as [|n IH]; intros [|c s] Hle; simpl in Hle;
    try (constructor; fail); try lia.
  rewrite splitlines_cons; destruct (islinebreak c) eqn:Hc.
  - destruct s as [|c' s']; [repeat constructor|].
    simpl in Hle.
    destruct (_ && _); (constructor; [reflexivity|]); apply IH; simpl; lia.
  - assert (Hs : Forall (fun l => all_chars not_linebreak l = true) (splitlines s))
      by (apply IH; lia).
    destruct (splitlines s) as [|l ls].
    + repeat constructor; cbn [all_chars]; unfold not_linebreak; now rewrite Hc.
    + inversion Hs as [|? ? Hl Hls]; subst; constructor; [|exact Hls].
      cbn [all_chars]; unfold not_linebreak at 1; now rewrite Hc.
Qed.

(** X6. The lines the page filter hands to the loop are stripped, not
    empty, free of line boundaries, and match no exclusion pattern, in any
    letter case. *)
Theorem filtered_lines_are_clean (content : string) :
  Forall (fun l => strip l = l
                   /\ nonblank l = true
                   /\ all_chars not_linebreak l = true
                   /\ exclude_search l = false)
         (page_lines content).
Proof.
  apply Forall_forall; intros l Hl; unfold page_lines in Hl.
  apply filter_In in Hl as [Hl Hx].
  apply in_map_iff in Hl as (raw & <- & Hraw).
  apply filter_In in Hraw as [Hraw Hnb].
  split; [apply strip_idem|].
  split; [exact Hnb|].
  split.
  - apply all_chars_strip.
    pose proof (splitlines_no_break (truncate content)) as H.
    rewrite Forall_forall in H; now apply H.
  - now apply negb_true_iff in Hx.
Qed.

(** ** Whitespace of the final descriptions *)

Lemma all_chars_app P a b : all_chars P (a ++ b) = all_chars P a && all_chars P b.
Proof.
  induction a as [|c a IH]; [reflexivity|]; cbn [append all_chars].
  now rewrite IH, andb_assoc.
Qed.

Lemma all_chars_weaken (P Q : ascii -> bool) s :
  (forall c, P c = true -> Q c = true) ->
  all_chars P s = true -> all_chars Q s = true.
Proof.
  intros HPQ; induction s as [|c s IH]; [reflexivity|]; cbn [all_chars]; intros H.
  apply andb_true_iff in H as [Hc Hs]; now rewrite (HPQ c Hc), IH.
Qed.

(** The words of a text hold no whitespace. *)
Lemma split_words_solid s :
  Forall (fun w => all_chars not_space w = true) (split s).
Proof.
  induction s as [|x s IH]; [constructor|].
  rewrite split_cons; destruct (isspace x) eqn:Hx; [exact IH|].
  assert (Hnx : not_space x = true) by (unfold not_space; now rewrite Hx).
  destruct s as [|c s']; [repeat constructor; cbn [all_chars]; now rewrite Hnx|].
  destruct (isspace c).
  - constructor; [cbn [all_chars]; now rewrite Hnx | exact IH].
  - destruct (split (String c s')) as [|w ws].
    + repeat constructor; cbn [all_chars]; now rewrite Hnx.
    + inversion IH as [|? ? Hw Hws]; subst; constructor; [|exact Hws].
      cbn [all_chars]; now rewrite Hnx, Hw.
Qed.

Lemma join_plain ws :
  Forall (fun w => all_chars not_space w = true) ws ->
  all_chars plain (join " " ws) = true.
Proof.
  assert (Hw : forall w, all_chars not_space w = true -> all_chars plain w = true).
  { intros w; apply all_chars_weaken; intros c Hc.
    unfold plain, not_space in *; now rewrite Hc. }
  induction 1 as [|w ws Hsolid Hws IH]; [reflexivity|].
  unfold join in *; destruct ws as [|w' ws]; [cbn; now apply Hw|].
  change (String.concat " " (w :: w' :: ws))
    with (w ++ String " " (String.concat " " (w' :: ws))).
  rewrite all_chars_app, (Hw w Hsolid); cbn [all_chars andb].
  now rewrite IH.
Qed.

(** What a scan leaves outside the tokens is made of characters of the
    scanned text. *)
Lemma literals_all_chars P s :
  all_chars P s = true -> forall skip, all_chars P (literals (scan skip s)) = true.
Proof.
  induction s as [|c s IH]; [reflexivity|]; cbn [all_chars]; intros H skip.
  apply andb_true_iff in H as [Hc Hs]; cbn [scan].
  destruct skip as [|k]; [|now apply IH].
  destruct (match_amount (String c s)); cbn [literals all_chars]; [now apply IH|].
  now rewrite Hc, IH.
Qed.

Lemma clean_description_tidy x :
  strip (clean_description x) = clean_description x
  /\ all_chars plain (clean_description x) = true.
Proof.
  unfold clean_description; split; [apply strip_idem|].
  apply all_chars_strip; unfold sub_amounts.
  apply literals_all_chars, join_plain, split_words_solid.
Qed.

(** X7. Every description of the table is stripped, and the only
    whitespace characters left in it are plain spaces: tabs and the other
    whitespace of the page are gone. *)
Theorem descriptions_are_tidy (files : list file) :
  Forall (fun t => strip (t_description t) = t_description t
                   /\ all_chars plain (t_description t) = true)
         (extract_transactions_from_pdf files).
Proof.
  unfold extract_transactions_from_pdf.
  eapply Permutation_Forall; [symmetry; apply sort_values_perm|].
  apply Forall_forall; intros t Ht.
  apply in_map_iff in Ht as (r & <- & _).
  apply clean_description_tidy.
Qed.

(** ** Text without a currency sign *)

Lemma amount_tail_dollar s t : amount_tail s = Some t -> prefix "$" s = true.
Proof.
  unfold amount_tail; destruct s as [|c s']; [discriminate|].
  destruct (Ascii.eqb_spec c "$") as [->|]; cbv iota; [|discriminate].
  intros _; now destruct s'.
Qed.

Lemma prefix_contains m s : prefix m s = true -> contains m s = true.
Proof. intros H; destruct s; cbn [contains]; now rewrite H. Qed.

Lemma contains_tail m c s : contains m s = true -> contains m (String c s) = true.
Proof. intros H; cbn [contains]; rewrite H; now destruct (prefix m (String c s)). Qed.

Lemma match_amount_dollar s t : match_amount s = Some t -> contains "$" s = true.
Proof.
  unfold match_amount; destruct s as [|c s']; [discriminate|].
  destruct (c =? "(")%char.
  - destruct (amount_tail s') as [u|] eqn:E; [|discriminate]; intros _.
    now apply contains_tail, prefix_contains, (amount_tail_dollar s' u).
  - intros H; now apply prefix_contains, (amount_tail_dollar _ t).
Qed.

Lemma contains_cons m c s :
  contains m (String c s) = false -> contains m s = false.
Proof. cbn [contains]; now destruct (prefix m (String c s)). Qed.

Lemma scan_without_dollar s :
  contains "$" s = false ->
  scan 0 s = map Lit (list_ascii_of_string s).
Proof.
  induction s as [|c s IH]; [reflexivity|]; intros H; cbn [scan].
  destruct (match_amount (String c s)) as [t|] eqn:E.
  - apply match_amount_dollar in E; congruence.
  - cbn [list_ascii_of_string map]; rewrite IH; [reflexivity|].
    eapply contains_cons; eassumption.
Qed.

(** X8. A text without a dollar sign holds no amount token and comes out
    of the amount removal unchanged. *)
Theorem no_dollar_no_amount (s : string) :
  contains "$" s = false ->
  findall_amounts s = [] /\ sub_amounts s = s.
Proof.
  intros H; unfold findall_amounts, sub_amounts.
  rewrite (scan_without_dollar s H); clear H.
  induction s as [|c s [IH1 IH2]]; [now split|].
  cbn [list_ascii_of_string map tokens literals]; now rewrite IH2.
Qed.

Lemma no_dollar_no_amount_witness :
  findall_amounts "PAYROLL DEPOSIT (ACH) 1,200.00" = []
  /\ sub_amounts "PAYROLL DEPOSIT (ACH) 1,200.00" = "PAYROLL DEPOSIT (ACH) 1,200.00".
Proof. exact (no_dollar_no_amount "PAYROLL DEPOSIT (ACH) 1,200.00" eq_refl). Defined.

(** ** The page text after truncation *)

Lemma contains_before m s : m <> EmptyString -> contains m (before m s) = false.
Proof.
  intros Hm.
  assert (H0 : contains m "" = false).
  { destruct m as [|a m]; [congruence | reflexivity]. }
  induction s as [|c s IH]; [now rewrite before_nil|].
  cbn [before]; destruct (prefix m (String c s)) eqn:E; [exact H0|].
  cbn [contains]; now rewrite (prefix_before m c s E), IH.
Qed.

(** X9. After truncation the page text no longer holds the marker
    Important Notice; it is a leading part of the page text, and truncating
    it again changes nothing. *)
Theorem truncated_text_has_no_marker (content : string) :
  contains marker (truncate content) = false
  /\ truncate (truncate content) = truncate content
  /\ exists rest, content = truncate content ++ rest.
Proof.
  assert (H : contains marker (truncate content) = false).
  { unfold truncate; destruct (contains marker content) eqn:E; [|exact E].
    apply contains_before; discriminate. }
  split; [exact H|]. split.
  - unfold truncate at 1; now rewrite H.
  - unfold truncate; destruct (contains marker content).
    + apply before_split.
    + exists EmptyString; now rewrite append_assoc_nil.
Qed.

(** ** The marker inside the loop *)

Lemma part_of_refl x : part_of x x.
Proof. exists EmptyString, EmptyString; cbn; now rewrite append_assoc_nil. Qed.

Lemma part_of_trans x y z : part_of x y -> part_of y z -> part_of x z.
Proof.
  intros (a & b & ->) (a' & b' & ->).
  exists (a' ++ a), (b ++ b'); now rewrite !append_assoc.
Qed.

Lemma part_of_suffix a x : part_of x (a ++ x).
Proof. exists a, EmptyString; now rewrite append_assoc_nil. Qed.

Lemma part_of_prefix x b : part_of x (x ++ b).
Proof. now exists EmptyString, b. Qed.

Lemma lstrip_part s : part_of (lstrip s) s.
Proof.
  induction s as [|c s IH]; [apply part_of_refl|]; cbn [lstrip].
  destruct (isspace c); [|apply part_of_refl].
  eapply part_of_trans; [exact IH|]. apply (part_of_suffix (String c "") s).
Qed.

Lemma rstrip_part s : part_of (rstrip s) s.
Proof.
  destruct (rstrip_split s) as (ws & Hs & _).
  rewrite Hs at 2; apply part_of_prefix.
Qed.

Lemma strip_part s : part_of (strip s) s.
Proof.
  unfold strip; eapply part_of_trans; [apply lstrip_part | apply rstrip_part].
Qed.

Lemma upto_newline_split s : exists b, s = upto_newline s ++ b.
Proof.
  induction s as [|c s [b IH]]; [now exists EmptyString|]; cbn [upto_newline].
  destruct (c =? LF)%char; [now exists (String c s)|].
  exists b; cbn [append]; now rewrite <- IH.
Qed.

Lemma upto_newline_part s : part_of (upto_newline s) s.
Proof.
  destruct (upto_newline_split s) as [b Hb].
  rewrite Hb at 2; apply part_of_prefix.
Qed.

(** An occurrence in a part is an occurrence in the whole. *)
Lemma contains_part m x y :
  part_of x y -> contains m x = true -> contains m y = true.
Proof.
  intros (a & b & ->) H.
  destruct (contains_split m x H) as [r Hr]; rewrite Hr.
  rewrite !append_assoc, <- (append_assoc a); apply contains_app.
Qed.

Lemma prefix_prefix_ci m s : prefix m s = true -> prefix_ci m s = true.
Proof.
  revert s; induction m as [|a m IH]; intros s H; [reflexivity|].
  destruct s as [|b s]; simpl in H; [discriminate|].
  destruct (ascii_dec a b) as [->|]; [|discriminate].
  cbn [prefix_ci]; now rewrite Ascii.eqb_refl, IH.
Qed.

Lemma contains_contains_ci m s : contains m s = true -> contains_ci m s = true.
Proof.
  induction s as [|c s IH]; cbn [contains contains_ci].
  - destruct (prefix m "") eqn:E; [|discriminate].
    now rewrite (prefix_prefix_ci _ _ E).
  - destruct (prefix m (String c s)) eqn:E.
    + now rewrite (prefix_prefix_ci _ _ E).
    + intros H; rewrite (IH H); now destruct (prefix_ci m (String c s)).
Qed.

Lemma not_excluded_no_marker l : exclude_search l = false -> contains marker l = false.
Proof.
  intros H; destruct (contains marker l) eqn:E; [|reflexivity].
  apply contains_contains_ci in E.
  unfold exclude_search, exclude_patterns in H; cbn [existsb] in H.
  fold marker in H; rewrite E in H.
  now rewrite !orb_true_r in H.
Qed.

(** X10. On a filtered page the cut at Important Notice inside the date
    branch of the loop never applies: the text after the date token of a
    date-prefixed line does not hold the marker, and the transaction opens
    with that text, stripped, as its only fragment when it is not empty. *)
Theorem date_branch_never_cuts (content raw d g2 : string) :
  In raw (page_lines content) ->
  date_match (strip raw) = Some (d, g2) ->
  contains marker (strip g2) = false
  /\ start_transaction d g2 = append_nonblank (strip g2) (fresh (Some d)).
Proof.
  intros Hin Hd.
  assert (Hno : contains marker (strip g2) = false).
  { destruct (contains marker (strip g2)) eqn:E; [|reflexivity].
    assert (Hraw : exclude_search raw = false).
    { unfold page_lines in Hin; apply filter_In in Hin as [_ Hx].
      now apply negb_true_iff in Hx. }
    apply not_excluded_no_marker in Hraw.
    destruct (date_match_split _ _ _ Hd) as (rest & Hs & _ & Hg).
    assert (Hp : part_of (strip g2) raw).
    { eapply part_of_trans; [apply strip_part|].
      rewrite Hg; eapply part_of_trans; [apply upto_newline_part|].
      eapply part_of_trans; [apply lstrip_part|].
      eapply part_of_trans; [apply (part_of_suffix d rest)|].
      rewrite <- Hs; apply strip_part. }
    rewrite (contains_part marker _ _ Hp E) in Hraw; discriminate. }
  split; [exact Hno|].
  unfold start_transaction, cut_at_marker; rewrite Hno.
  unfold append_nonblank; now destruct (nonblank (strip g2)).
Qed.

Lemma date_branch_never_cuts_witness :
  contains marker "RENT" = false
  /\ start_transaction "01/02/2023" "RENT"
     = append_nonblank "RENT" (fresh (Some "01/02/2023")).
Proof.
  refine (date_branch_never_cuts
            (unlines ["01/02/2023 RENT"; "$900.00"]) "01/02/2023 RENT"
            "01/02/2023" "RENT" _ eq_refl).
  vm_compute; left; reflexivity.
Defined.

(** * The loaders *)

(** ** Splitting a file name *)

Import Str.

Lemma split_on_cons sep c s :
  split_on sep (String c s) =
    if (c =? sep)%char then EmptyString :: split_on sep s
    else match split_on sep s with
         | w :: ws => String c w :: ws
         | [] => [String c EmptyString]
         end.
Proof. reflexivity. Qed.

Lemma split_on_length sep s :
  List.length (split_on sep s) = S (count_char sep s).
Proof.
  induction s as [|c s IH]; [reflexivity|].
  rewrite split_on_cons; cbn [count_char].
  destruct (c =? sep)%char; cbn [List.length]; [now rewrite IH|].
  destruct (split_on sep s); cbn [List.length] in *; [discriminate | now rewrite IH].
Qed.

(** Joining the parts with the separator gives the text back. *)
Lemma split_on_join sep s : String.concat (String sep "") (split_on sep s) = s.
Proof.
  induction s as [|c s IH]; [reflexivity|].
  rewrite split_on_cons.
  destruct (Ascii.eqb_spec c sep) as [->|Hc].
  - pose proof (split_on_length sep s) as Hl.
    destruct (split_on sep s) as [|w ws]; [discriminate|].
    cbn [String.concat append] in *; now rewrite IH.
  - pose proof (split_on_length sep s) as Hl.
    destruct (split_on sep s) as [|w ws]; [discriminate|].
    cbn [String.concat] in *. destruct ws; cbn [append]; now rewrite <- IH.
Qed.

Lemma split_on_parts_clean sep s :
  Forall (fun w => count_char sep w = 0) (split_on sep s).
Proof.
  induction s as [|c s IH]; [repeat constructor|].
  rewrite split_on_cons.
  destruct (c =? sep)%char eqn:Hc; [constructor; [reflexivity | exact IH]|].
  destruct (split_on sep s) as [|w ws].
  - repeat constructor; cbn [count_char]; now rewrite Hc.
  - inversion IH as [|? ? Hw Hws]; subst; constructor; [|exact Hws].
    cbn [count_char]; now rewrite Hc, Hw.
Qed.

Lemma split_on_clean sep s : count_char sep s = 0 -> split_on sep s = [s].
Proof.
  induction s as [|c s IH]; [reflexivity|]; cbn [count_char].
  rewrite split_on_cons; destruct (c =? sep)%char; [discriminate|].
  intros H; now rewrite (IH H).
Qed.

Lemma split_on_app sep a b :
  count_char sep a = 0 ->
  split_on sep (a ++ String sep b) = a :: split_on sep b.
Proof.
  induction a as [|c a IH]; cbn [count_char append].
  - intros _; rewrite split_on_cons; now rewrite Ascii.eqb_refl.
  - rewrite split_on_cons; destruct (c =? sep)%char; [discriminate|].
    intros H; now rewrite (IH H).
Qed.

Lemma count_char_app c a b : count_char c (a ++ b) = count_char c a + count_char c b.
Proof.
  induction a as [|x a IH]; [reflexivity|]; cbn [append count_char].
  rewrite IH; lia.
Qed.

(** ** Dropping the extension *)

Lemma remove_all_cons old c s :
  remove_all old 0 (String c s) =
    if prefix old (String c s) then remove_all old (String.length old - 1) s
    else String c (remove_all old 0 s).
Proof. reflexivity. Qed.

Lemma prefix_cons a m b s :
  prefix (String a m) (String b s) = (a =? b)%char && prefix m s.
Proof.
  simpl; destruct (ascii_dec a b) as [->|Hn].
  - now rewrite Ascii.eqb_refl.
  - apply Ascii.eqb_neq in Hn; now rewrite Hn.
Qed.

Lemma csv_not_at_head c x :
  prefix ".csv" (String c x) = false ->
  prefix ".csv" (String c (x ++ ".csv")) = false.
Proof.
  intros H.
  destruct x as [|c2 [|c3 [|c4 x]]].
  - cbn [append]; rewrite !prefix_cons.
    destruct ("." =? c)%char; reflexivity.
  - cbn [append]; rewrite !prefix_cons.
    destruct ("." =? c)%char; [|reflexivity].
    destruct ("c" =? c2)%char; reflexivity.
  - cbn [append]; rewrite !prefix_cons.
    destruct ("." =? c)%char; [|reflexivity].
    destruct ("c" =? c2)%char; [|reflexivity].
    destruct ("s" =? c3)%char; reflexivity.
  - change (String c (String c2 (String c3 (String c4 x)) ++ ".csv"))
      with (String c (String c2 (String c3 (String c4 x))) ++ ".csv").
    rewrite prefix_long; [exact H | cbn; lia].
Qed.

(** The extension at the end of a name that holds it nowhere else is
    dropped, and nothing else. *)
Lemma remove_all_suffix x :
  contains ".csv" x = false -> remove_all ".csv" 0 (x ++ ".csv") = x.
Proof.
  induction x as [|c x IH]; [reflexivity|]; intros H.
  cbn [append]; rewrite remove_all_cons.
  assert (Hp : prefix ".csv" (String c x) = false).
  { cbn [contains] in H; now destruct (prefix ".csv" (String c x)). }
  rewrite (csv_not_at_head c x Hp), IH; [reflexivity|].
  eapply contains_cons; eassumption.
Qed.

(** What is left after the removals holds no separator the text did not
    hold. *)
Lemma remove_all_count old c s :
  count_char c s = 0 -> forall skip, count_char c (remove_all old skip s) = 0.
Proof.
  induction s as [|x s IH]; [reflexivity|]; cbn [count_char]; intros H skip.
  assert (Hx : (x =? c)%char = false) by (destruct (x =? c)%char; [lia | reflexivity]).
  assert (Hs : count_char c s = 0) by lia.
  cbn [remove_all]; destruct skip as [|k]; [|now apply IH].
  destruct (prefix old (String x s)); [now apply IH|].
  cbn [count_char]; now rewrite Hx, IH.
Qed.

(** ** [parse_filename] of the bank loader *)

Lemma split_on_two sep s a b :
  split_on sep s = [a; b] ->
  s = a ++ String sep b /\ count_char sep a = 0 /\ count_char sep b = 0.
Proof.
  intros H.
  pose proof (split_on_join sep s) as Hj.
  pose proof (split_on_parts_clean sep s) as Hc.
  rewrite H in Hj, Hc; cbn [String.concat] in Hj.
  inversion Hc as [|? ? Ha Hc']; inversion Hc' as [|? ? Hb _]; subst.
  repeat split; assumption.
Qed.

(** X11. The bank loader reads a file name when and only when it holds
    exactly one underscore; the name is then the bank, the underscore and
    the rest, neither part holds an underscore, and the account is the
    rest with every .csv taken out. Any other name is refused with a
    message that quotes it. *)
Theorem bank_parse_filename_one_underscore (filename : string) :
  ((exists v, Bank.parse_filename filename = Ok v)
   <-> count_char "_" filename = 1)
  /\ (forall bank account,
        Bank.parse_filename filename = Ok (bank, account) ->
        exists rest,
          filename = bank ++ String "_" rest
          /\ account = remove_all ".csv" 0 rest
          /\ count_char "_" bank = 0 /\ count_char "_" account = 0)
  /\ (count_char "_" filename <> 1 ->
      Bank.parse_filename filename
      = ValueError ("Invalid filename format: " ++ filename
                    ++ ". Expected: bankname_accountname.csv")).
Proof.
  pose proof (split_on_length "_" filename) as Hl.
  unfold Bank.parse_filename.
  destruct (split_on "_" filename) as [|a [|b [|c l]]] eqn:E; cbn [List.length] in Hl.
  - discriminate.
  - split; [split; [intros [v Hv]; discriminate | intros H; lia]|].
    split; [intros ? ? H; discriminate | reflexivity].
  - split; [split; [intros _; lia | intros _; now eexists]|].
    split; [|intros H; lia].
    intros bank account [= <- <-].
    destruct (split_on_two _ _ _ _ E) as (Hs & Ha & Hb).
    exists b; repeat split; auto.
    now apply remove_all_count.
  - split; [split; [intros [v Hv]; discriminate | intros H; lia]|].
    split; [intros ? ? H; discriminate | reflexivity].
Qed.

Lemma bank_parse_filename_one_underscore_witness :
  exists rest,
    "chase_checking.csv" = "chase" ++ String "_" rest
    /\ "checking" = remove_all ".csv" 0 rest
    /\ count_char "_" "chase" = 0 /\ count_char "_" "checking" = 0.
Proof.
  exact (proj1 (proj2 (bank_parse_filename_one_underscore "chase_checking.csv"))
               "chase" "checking" eq_refl).
Defined.

(** X12. A bank file name made of a bank and an account without
    underscore, the account without .csv in it, and the extension .csv, is
    read back as that bank and that account. *)
Theorem bank_parse_filename_round_trip (bank account : string) :
  count_char "_" bank = 0 ->
  count_char "_" account = 0 ->
  contains ".csv" account = false ->
  Bank.parse_filename (bank ++ "_" ++ account ++ ".csv") = Ok (bank, account).
Proof.
  intros Hb Ha Hc; unfold Bank.parse_filename.
  change (bank ++ "_" ++ account ++ ".csv")
    with (bank ++ String "_" (account ++ ".csv")).
  rewrite (split_on_app "_" bank _ Hb), split_on_clean.
  - now rewrite remove_all_suffix.
  - rewrite count_char_app, Ha; reflexivity.
Qed.

Lemma bank_parse_filename_round_trip_witness :
  Bank.parse_filename "chase_checking.csv" = Ok ("chase", "checking").
Proof.
  exact (bank_parse_filename_round_trip "chase" "checking" eq_refl eq_refl eq_refl).
Defined.

(** ** [parse_filename] of the unified loader *)

Lemma split_on_three sep s a b c :
  split_on sep s = [a; b; c] ->
  s = a ++ String sep (b ++ String sep c)
  /\ count_char sep a = 0 /\ count_char sep b = 0 /\ count_char sep c = 0.
Proof.
  intros H.
  pose proof (split_on_join sep s) as Hj.
  pose proof (split_on_parts_clean sep s) as Hc.
  rewrite H in Hj, Hc; cbn [String.concat append] in Hj.
  inversion Hc as [|? ? Ha Hc']; inversion Hc' as [|? ? Hb Hc''];
    inversion Hc'' as [|? ? Hcc _]; subst.
  repeat split; assumption.
Qed.

Lemma known_type_cases t :
  Unified.known_type t = true -> t = "bank" \/ t = "credit".
Proof.
  unfold Unified.known_type; intros H; apply orb_true_iff in H as [H|H];
    apply String.eqb_eq in H; auto.
Qed.

(** X13. When the unified loader reads a file name, the source type it
    returns is bank or credit, in lower case whatever the case in the name;
    the name without its .csv is the type, the institution and the account
    separated by underscores, and neither the institution nor the account
    holds an underscore. *)
Theorem unified_parse_filename_result
    (filename institution account source_type : string) :
  Unified.parse_filename filename = Ok (institution, account, source_type) ->
  (source_type = "bank" \/ source_type = "credit")
  /\ count_char "_" institution = 0 /\ count_char "_" account = 0
  /\ exists file_type,
       lower file_type = source_type
       /\ remove_all ".csv" 0 filename
          = file_type ++ String "_" (institution ++ String "_" account).
Proof.
  unfold Unified.parse_filename.
  destruct (split_on "_" (remove_all ".csv" 0 filename))
    as [|t [|i [|a [|x l]]]] eqn:E; try discriminate.
  destruct (Unified.known_type (lower t)) eqn:Ek; [|discriminate].
  intros [= <- <- <-].
  destruct (split_on_three _ _ _ _ _ E) as (Hs & _ & Hi & Ha).
  split; [now apply known_type_cases|].
  split; [exact Hi|]. split; [exact Ha|].
  now exists t.
Qed.

Lemma unified_parse_filename_result_witness :
  ("bank" = "bank" \/ "bank" = "credit")
  /\ count_char "_" "chase" = 0 /\ count_char "_" "checking" = 0
  /\ exists file_type,
       lower file_type = "bank"
       /\ remove_all ".csv" 0 "Bank_chase_checking.csv"
          = file_type ++ String "_" ("chase" ++ String "_" "checking").
Proof.
  exact (unified_parse_filename_result "Bank_chase_checking.csv"
           "chase" "checking" "bank" eq_refl).
Defined.

(** X14. A unified file name made of a type that is bank or credit in any
    letter case, an institution and an account, none with an underscore,
    joined by underscores and followed by .csv, with no other .csv in it,
    is read back as that institution, that account and the type in lower
    case. *)
Theorem unified_parse_filename_round_trip (file_type institution account : string) :
  count_char "_" file_type = 0 ->
  count_char "_" institution = 0 ->
  count_char "_" account = 0 ->
  contains ".csv" (file_type ++ "_" ++ institution ++ "_" ++ account) = false ->
  Unified.known_type (lower file_type) = true ->
  Unified.parse_filename (file_type ++ "_" ++ institution ++ "_" ++ account ++ ".csv")
  = Ok (institution, account, lower file_type).
Proof.
  intros Ht Hi Ha Hc Hk; unfold Unified.parse_filename.
  assert (Hn : file_type ++ "_" ++ institution ++ "_" ++ account ++ ".csv"
               = (file_type ++ "_" ++ institution ++ "_" ++ account) ++ ".csv").
  { cbn [append]; rewrite !append_assoc; cbn [append].
    now rewrite append_assoc. }
  rewrite Hn, (remove_all_suffix _ Hc).
  change (file_type ++ "_" ++ institution ++ "_" ++ account)
    with (file_type ++ String "_" (institution ++ String "_" account)).
  rewrite (split_on_app "_" file_type _ Ht), (split_on_app "_" institution _ Hi).
  now rewrite (split_on_clean "_" account Ha), Hk.
Qed.

Lemma unified_parse_filename_round_trip_witness :
  Unified.parse_filename "CREDIT_amex_gold.csv" = Ok ("amex", "gold", "credit").
Proof.
  exact (unified_parse_filename_round_trip "CREDIT" "amex" "gold"
           eq_refl eq_refl eq_refl eq_refl eq_refl).
Defined.

(** ** Fiscal periods *)

Lemma month_cases (m : Z) :
  (1 <= m <= 12)%Z ->
  (m = 1 \/ m = 2 \/ m = 3 \/ m = 4 \/ m = 5 \/ m = 6
   \/ m = 7 \/ m = 8 \/ m = 9 \/ m = 10 \/ m = 11 \/ m = 12)%Z.
Proof. lia. Qed.

(** X15. In the unified loader the fiscal year is the calendar year and
    the fiscal quarter is the calendar quarter: for a month of the
    calendar it lies between 1 and 4, quarter q holds the months 3q-2 to
    3q, and a later month never has an earlier quarter. *)
Theorem unified_periods_are_calendar (date : Unified.Timestamp) :
  valid_month date ->
  let p := Unified.determine_fiscal_periods date in
  Unified.fiscal_year p = Unified.year date
  /\ (1 <= Unified.fiscal_quarter p <= 4)%Z
  /\ (3 * Unified.fiscal_quarter p - 2 <= Unified.month date
      <= 3 * Unified.fiscal_quarter p)%Z
  /\ (forall date',
        valid_month date' ->
        (Unified.month date <= Unified.month date')%Z ->
        (Unified.fiscal_quarter p
         <= Unified.fiscal_quarter (Unified.determine_fiscal_periods date'))%Z).
Proof.
  destruct date as [y m]; unfold valid_month, Unified.determine_fiscal_periods.
  cbn [Unified.fiscal_year Unified.fiscal_quarter Unified.year Unified.month].
  intros Hm; split; [reflexivity|].
  pose proof (Z.div_mod (m - 1) 3 ltac:(lia)) as Hdm.
  pose proof (Z.mod_pos_bound (m - 1) 3 ltac:(lia)) as Hb.
  split; [lia|]. split; [lia|].
  intros [y' m'].
  cbn [Unified.fiscal_year Unified.fiscal_quarter Unified.year Unified.month].
  intros Hm' Hle.
  apply Z.add_le_mono_r, Z.div_le_mono; lia.
Qed.

Lemma unified_periods_are_calendar_witness :
  Unified.determine_fiscal_periods (Unified.mkTimestamp 2024 11)
  = Unified.mkPeriods 2024 4 "November"
  /\ (3 * 4 - 2 <= 11 <= 3 * 4)%Z.
Proof.
  split; [reflexivity|].
  exact (proj1 (proj2 (proj2 (unified_periods_are_calendar
                                (Unified.mkTimestamp 2024 11)
                                ltac:(unfold valid_month; cbn; lia))))).
Defined.

(** X16. In the stocks loader the fiscal year starts in July: a month
    from July on belongs to the fiscal year named after the next calendar
    year, an earlier month to the one named after its own. The fiscal
    quarter of a month of the calendar lies between 1 and 4, and as the
    code computes it the quarters are not runs of three months: quarter 1
    is July and August, quarter 4 is June alone, quarter 2 is January,
    February and September to November, quarter 3 is March to May and
    December. *)
Theorem stocks_periods_from_july (date : Unified.Timestamp) :
  valid_month date ->
  let p := Stocks.determine_fiscal_periods date in
  let m := Unified.month date in
  let q := Unified.fiscal_quarter p in
  (Unified.fiscal_year p = Unified.year date + 1 <-> 7 <= m)%Z
  /\ (Unified.fiscal_year p = Unified.year date <-> m <= 6)%Z
  /\ (1 <= q <= 4)%Z
  /\ (q = 1 <-> m = 7 \/ m = 8)%Z
  /\ (q = 2 <-> m = 1 \/ m = 2 \/ m = 9 \/ m = 10 \/ m = 11)%Z
  /\ (q = 3 <-> m = 3 \/ m = 4 \/ m = 5 \/ m = 12)%Z
  /\ (q = 4 <-> m = 6)%Z.
Proof.
  destruct date as [y m]; unfold valid_month, Stocks.determine_fiscal_periods.
  cbn [Unified.fiscal_year Unified.fiscal_quarter Unified.year Unified.month].
  intros Hm.
  split; [destruct (Z.ltb_spec m 7); lia|].
  split; [destruct (Z.ltb_spec m 7); lia|].
  clear y.
  destruct (month_cases m Hm) as [H|[H|[H|[H|[H|[H|[H|[H|[H|[H|[H|H]]]]]]]]]]];
    subst m;
    match goal with
    | |- context [if ?b then ?x else ?z] =>
        let v := eval vm_compute in (if b then x else z) in
        change (if b then x else z) with v
    end;
    repeat split; intros; lia.
Qed.

Lemma stocks_periods_from_july_witness :
  Stocks.determine_fiscal_periods (Unified.mkTimestamp 2023 12)
  = Unified.mkPeriods 2024 3 "December"
  /\ (1 <= 3 <= 4)%Z.
Proof.
  split; [reflexivity|].
  exact (proj1 (proj2 (proj2 (stocks_periods_from_july
                                (Unified.mkTimestamp 2023 12)
                                ltac:(unfold valid_month; cbn; lia))))).
Defined.

(** * More on the rows *)

(** ** The balance comes first *)

Lemma assign_settled p a :
  settled (credits (assign p a)) (debits (assign p a)) (balance (assign p a)) = true.
Proof.
  unfold assign; destruct (balance p) eqn:Eb; [destruct (contains "(" a)|];
    cbn [set_credits set_debits set_balance credits debits balance];
    rewrite ?Eb; reflexivity.
Qed.

Lemma classify_settled l p :
  settled (credits p) (debits p) (balance p) = true ->
  settled (credits (classify l p)) (debits (classify l p)) (balance (classify l p))
  = true.
Proof.
  intros Hp; destruct l as [|a l]; [exact Hp|].
  rewrite classify_cons; apply assign_settled.
Qed.

Lemma append_nonblank_settled part p :
  settled (credits (append_nonblank part p)) (debits (append_nonblank part p))
          (balance (append_nonblank part p))
  = settled (credits p) (debits p) (balance p).
Proof. unfold append_nonblank; now destruct (nonblank part). Qed.

Lemma is_amount_nonblank t : is_amount t = true -> t <> EmptyString.
Proof. intros H ->; discriminate. Qed.

(** X17. No row of the table has a credit or a debit without a balance:
    the first token classified for a transaction always takes the balance
    slot, so the balance column is filled or the other two are empty. *)
Theorem no_credit_or_debit_without_balance (files : list file) :
  Forall (fun t => t_balance t <> EmptyString
                   \/ (t_credits t = EmptyString /\ t_debits t = EmptyString))
         (extract_transactions_from_pdf files).
Proof.
  assert (H : Forall (fun r => balance_ok (Balance r) = true
                               /\ settled (Credits r) (Debits r) (Balance r) = true)
                     (collect files)).
  { apply (collect_invariant
             (fun p => slots_ok p
                       /\ settled (credits p) (debits p) (balance p) = true)).
    - intros line d g2 _; split; [apply start_transaction_slots_ok|].
      pose proof (start_transaction_slots d g2) as Hs; unfold slots in Hs.
      injection Hs as -> -> ->; reflexivity.
    - intros next_line p [Hok Hs]; unfold consume_next; split.
      + apply classify_slots_ok; [apply findall_are_amounts|].
        now apply append_nonblank_slots_ok.
      + apply classify_settled; now rewrite append_nonblank_settled.
    - intros line p [Hok Hs]; split; [now apply continuation_slots_ok|].
      unfold continuation; destruct (findall_amounts line); [exact Hs|].
      apply classify_settled; now rewrite append_nonblank_settled.
    - intros p [(_ & _ & Hb) Hs] _; now split.
    - split; [now repeat split | reflexivity]. }
  unfold extract_transactions_from_pdf.
  eapply Permutation_Forall; [symmetry; apply sort_values_perm|].
  apply Forall_forall; intros t Ht.
  apply in_map_iff in Ht as (r & <- & Hr).
  apply filter_In in Hr as [Hr _].
  rewrite Forall_forall in H; destruct (H r Hr) as (Hb & Hs).
  cbn [finalize t_credits t_debits t_balance].
  destruct (Balance r) as [b|]; cbn [fillna balance_ok] in *.
  - left; now apply is_amount_nonblank.
  - right; destruct (Credits r), (Debits r); try discriminate; now split.
Qed.

(** ** Letter case of the exclusion patterns *)

Lemma lower_idem c : Text.lower (Text.lower c) = Text.lower c.
Proof. destruct c as [[] [] [] [] [] [] [] []]; reflexivity. Qed.

Lemma prefix_ci_fold_case p s : prefix_ci p (fold_case s) = prefix_ci p s.
Proof.
  revert s; induction p as [|a p IH]; intros s; [reflexivity|].
  destruct s as [|b s]; [reflexivity|]; cbn [fold_case prefix_ci].
  now rewrite lower_idem, IH.
Qed.

Lemma contains_ci_fold_case p s : contains_ci p (fold_case s) = contains_ci p s.
Proof.
  induction s as [|c s IH]; [reflexivity|].
  change (fold_case (String c s)) with (String (Text.lower c) (fold_case s)).
  cbn [contains_ci].
  change (String (Text.lower c) (fold_case s)) with (fold_case (String c s)).
  now rewrite prefix_ci_fold_case, IH.
Qed.

Lemma exclude_search_fold_case s : exclude_search (fold_case s) = exclude_search s.
Proof.
  unfold exclude_search; induction exclude_patterns as [|p ps IH]; [reflexivity|].
  cbn [existsb]; now rewrite contains_ci_fold_case, IH.
Qed.

(** X18. The exclusion patterns are matched whatever the letter case: two
    texts that differ only in the case of their letters A..Z are excluded
    together or kept together. *)
Theorem exclusion_ignores_case (s s' : string) :
  fold_case s = fold_case s' -> exclude_search s = exclude_search s'.
Proof.
  intros H.
  now rewrite <- (exclude_search_fold_case s), H, exclude_search_fold_case.
Qed.

Lemma exclusion_ignores_case_witness :
  exclude_search "BEGINNING BALANCE $1,000.00"
  = exclude_search "Beginning Balance $1,000.00"
  /\ exclude_search "Beginning Balance $1,000.00" = true.
Proof.
  split; [|reflexivity].
  exact (exclusion_ignores_case "BEGINNING BALANCE $1,000.00"
           "Beginning Balance $1,000.00" eq_refl).
Defined.

(** * The date-prefixed line, its amounts and the cleanup *)

(** On a filtered page the text after the date token holds no marker. *)
Lemma filtered_remainder_has_no_marker content raw d g2 :
  In raw (page_lines content) ->
  date_match (strip raw) = Some (d, g2) ->
  contains marker (strip g2) = false.
Proof.
  intros Hin Hd.
  destruct (contains marker (strip g2)) eqn:E; [|reflexivity].
  assert (Hraw : exclude_search raw = false).
  { unfold page_lines in Hin; apply filter_In in Hin as [_ Hx].
    now apply negb_true_iff in Hx. }
  apply not_excluded_no_marker in Hraw.
  destruct (date_match_split _ _ _ Hd) as (rest & Hs & _ & Hg).
  assert (Hp : part_of (strip g2) raw).
  { eapply part_of_trans; [apply strip_part|].
    rewrite Hg; eapply part_of_trans; [apply upto_newline_part|].
    eapply part_of_trans; [apply lstrip_part|].
    eapply part_of_trans; [apply (part_of_suffix d rest)|].
    rewrite <- Hs; apply strip_part. }
  rewrite (contains_part marker _ _ Hp E) in Hraw; discriminate.
Qed.

(** C7, as the code has it. When the cursor of the loop is at a
    date-prefixed line that holds no column title, the amount tokens of
    that line are not classified: the new transaction has its three amount
    slots empty whatever the line holds, the slots after the lookahead are
    those the next line alone gives, and the text after the date token goes
    to the description as it is, amounts included (on a filtered page that
    text cannot hold the marker of the legal notice, so it is never cut). A
    date-prefixed line that carries amounts and comes right after such a
    line is not at the cursor: the lookahead consumes it and its tokens are
    classified. A date-prefixed line at the cursor that holds a column
    title is skipped whole. The
    cleanup of the aggregator then rewrites the description without the
    amount tokens a scan finds in it: scanned pieces put back together give
    the description, the cleaned description keeps the pieces that are not
    tokens, and the tokens so removed are those of the fragments of the
    description, the remainder of the date-prefixed line among them. *)
Theorem date_line_amounts_reach_description :
  (forall raw st d g2,
      is_header (strip raw) = false ->
      date_match (strip raw) = Some (d, g2) ->
      (exists rest, strip raw = d ++ rest /\ g2 = upto_newline (lstrip rest))
      /\ segment [raw] st = (save_previous (fst st) (snd st), start_transaction d g2)
      /\ slots (start_transaction d g2) = (None, None, None)
      /\ (contains marker (strip g2) = false ->
          description (start_transaction d g2)
          = if nonblank (strip g2) then [strip g2] else [])
      /\ (forall next_line amounts,
            slots (consume_next next_line amounts (start_transaction d g2))
            = slots (classify amounts (fresh None)))
      /\ (forall rest,
            segment (raw :: rest) st =
              let transaction_data := save_previous (fst st) (snd st) in
              let cur := start_transaction d g2 in
              match rest with
              | [] => (transaction_data, cur)
              | raw' :: rest' =>
                  match findall_amounts (strip raw') with
                  | [] => segment rest (transaction_data, cur)
                  | amounts =>
                      segment rest'
                        (transaction_data, consume_next (strip raw') amounts cur)
                  end
              end)
      /\ (forall raw' rest,
            findall_amounts (strip raw') <> [] ->
            let p := consume_next (strip raw') (findall_amounts (strip raw'))
                                  (start_transaction d g2) in
            segment (raw :: raw' :: rest) st
            = segment rest (save_previous (fst st) (snd st), p)
            /\ slots p = slots (classify (findall_amounts (strip raw')) (fresh None))
            /\ description p
               = description
                   (append_nonblank (strip (sub_amounts (strip raw')))
                                    (start_transaction d g2))))
  /\ (forall raw rest st,
        is_header (strip raw) = true -> segment (raw :: rest) st = segment rest st)
  /\ (forall content raw d g2,
        In raw (page_lines content) ->
        date_match (strip raw) = Some (d, g2) ->
        description (start_transaction d g2)
        = if nonblank (strip g2) then [strip g2] else [])
  /\ (forall r,
        t_description (finalize r)
        = strip (literals (scan 0 (join " " (split (Description r))))))
  /\ (forall s, unscan (scan 0 s) = s /\ findall_amounts s = tokens (scan 0 s))
  /\ (forall p,
        findall_amounts (join " " (split (Description (row_of p))))
        = concat (map findall_amounts (description p)))
  /\ segment ["01/02/2023 COFFEE $4.50"] ([], fresh None)
     = ([], mkPending (Some "01/02/2023") ["COFFEE $4.50"] None None None)
  /\ extract_transactions_from_pdf [("statement.pdf", ["01/02/2023 COFFEE $4.50"])]
     = [mkTransaction (Some "01/02/2023") "COFFEE" "" "" ""].
Proof.
  assert (Hslots : forall d g2 next_line amounts,
             slots (consume_next next_line amounts (start_transaction d g2))
             = slots (classify amounts (fresh None))).
  { intros d g2 next_line amounts; unfold consume_next.
    apply classify_slots.
    now rewrite append_nonblank_slots, start_transaction_slots. }
  split; [|split; [|split; [|split; [|split; [|split; [|split]]]]]].
  - intros raw st d g2 Hh Hd.
    split.
    { destruct (date_match_split _ _ _ Hd) as (rest & H1 & _ & H2); now exists rest. }
    split; [now rewrite (segment_date_line raw [] st d g2 Hh Hd)|].
    split; [apply start_transaction_slots|].
    split; [apply start_transaction_description|].
    split; [apply Hslots|].
    split; [intros rest; now apply segment_date_line|].
    intros raw' rest Hne p.
    split; [|split; [apply Hslots|]].
    + rewrite (segment_date_line raw (raw' :: rest) st d g2 Hh Hd); cbv zeta.
      unfold p; destruct (findall_amounts (strip raw')); [congruence | reflexivity].
    + unfold p, consume_next; apply classify_description.
  - intros raw rest st; apply segment_header_line.
  - intros content raw d g2 Hin Hd.
    apply start_transaction_description.
    eapply filtered_remainder_has_no_marker; eassumption.
  - reflexivity.
  - intros s; split; [apply unscan_scan | reflexivity].
  - intros p; cbn [row_of Description]; unfold assemble.
    now rewrite findall_normalized, findall_strip, findall_join.
  - vm_compute; reflexivity.
  - vm_compute; reflexivity.
Qed.

Lemma date_line_amounts_reach_description_witness :
  let raw := "01/02/2023 COFFEE $4.50" in
  findall_amounts raw = ["$4.50"]
  /\ segment [raw] ([], fresh None) = ([], start_transaction "01/02/2023" "COFFEE $4.50")
  /\ slots (start_transaction "01/02/2023" "COFFEE $4.50") = (None, None, None)
  /\ description (start_transaction "01/02/2023" "COFFEE $4.50") = ["COFFEE $4.50"].
Proof.
  intros raw.
  destruct date_line_amounts_reach_description as [H _].
  destruct (H raw ([], fresh None) "01/02/2023" "COFFEE $4.50" eq_refl eq_refl)
    as (_ & Hs & Hslots & Hdesc & _).
  split; [reflexivity|].
  split; [exact Hs|].
  split; [exact Hslots|].
  exact (Hdesc eq_refl).
Defined.

(** C7, as stated, fails for a date-prefixed line that is not at the
    cursor or holds a column title. The second line below is date-prefixed
    and carries amounts; it comes right after a date-prefixed line, the
    lookahead consumes it, and its tokens are classified into the open
    transaction, its date token going to the description. The last line is
    date-prefixed and holds the word Balance: it is skipped whole, and the
    text after its date token reaches no description. *)
Lemma date_line_tokens_classified_in_lookahead :
  let next := "01/03/2023 FEE $2.00 $998.00" in
  let titled := "01/02/2023 Balance transfer $5.00" in
  date_match next = Some ("01/03/2023", "FEE $2.00 $998.00")
  /\ segment ["01/02/2023 RENT"; next] ([], fresh None)
     = ([], mkPending (Some "01/02/2023") ["RENT"; "01/03/2023 FEE"]
                      (Some "$2.00") None (Some "$998.00"))
  /\ slots (snd (segment ["01/02/2023 RENT"; next] ([], fresh None)))
     <> (None, None, None)
  /\ date_match titled = Some ("01/02/2023", "Balance transfer $5.00")
  /\ segment [titled] ([], fresh None) = ([], fresh None).
Proof.
  intros next titled.
  split; [reflexivity|].
  split; [vm_compute; reflexivity|].
  split; [vm_compute; discriminate|].
  split; [reflexivity | vm_compute; reflexivity].
Qed.
